(** * Bulk URL status checker (tool.py): a shallow embedding and its properties

    The development follows [tool.py]: the class [UrlChecker] with
    [normalize_url], [check_url], [check_urls], [print_results] and
    [save_csv_report], then [load_urls_from_file] and [main].

    Modelling conventions.
    - A Python [str] is a Rocq [string]; each character stands for the code
      point of the same number (code points below 256).
    - A Python [dict] with string keys is a [gmap string _]; a missing key is a
      lookup that yields [None], a key bound to Python's [None] is a lookup that
      yields [Some VNone].
    - A call that may raise returns a [pyresult]; an exception that no handler
      catches travels to the caller as [Raise e].
    - The network and the wall clock are an oracle ([transport]); every request
      that is issued is recorded in the [world].
    - A Python [float] is carried as the rational it denotes, and [round] is the
      exact round-half-to-even on rationals. *)

From Stdlib Require Import ZArith QArith Qround Ascii String.
From stdpp Require Import gmap strings list fin_maps.

Local Open Scope string_scope.
Local Open Scope list_scope.

(** ** Python values, exceptions, results *)

Inductive pyval : Type :=
  | VNone
  | VBool (b : bool)
  | VInt (z : Z)
  | VFloat (q : Q)
  | VStr (s : string).

(** The exceptions that the program can meet.  [RequestException cls msg] is an
    instance [e] of the class [cls], a subclass of
    [requests.exceptions.RequestException] (or that class itself), with
    [str(e) = msg]; [OtherException cls msg] is an instance of a class outside
    that hierarchy. *)
Inductive exn : Type :=
  | ValueError (msg : string)
  | ZeroDivisionError (msg : string)
  | TypeError (msg : string)
  | KeyError (key : string)
  | RequestException (cls msg : string)
  | OtherException (cls msg : string).

Inductive pyresult (A : Type) : Type :=
  | Ok (a : A)
  | Raise (e : exn).
Arguments Ok {A} a.
Arguments Raise {A} e.

Definition returns {A} (r : pyresult A) : Prop := ∃ a, r = Ok a.

Definition is_ok {A} (r : pyresult A) : bool :=
  match r with Ok _ => true | Raise _ => false end.

(** [isinstance(e, requests.exceptions.RequestException)] *)
Definition is_request_exception (e : exn) : bool :=
  match e with RequestException _ _ => true | _ => false end.

(** [type(e).__name__] and [str(e)] *)
Definition type_name (e : exn) : string :=
  match e with
  | ValueError _ => "ValueError"
  | ZeroDivisionError _ => "ZeroDivisionError"
  | TypeError _ => "TypeError"
  | KeyError _ => "KeyError"
  | RequestException cls _ => cls
  | OtherException cls _ => cls
  end.

Definition str_of_exn (e : exn) : string :=
  match e with
  | ValueError m | ZeroDivisionError m | TypeError m => m
  | KeyError k => k
  | RequestException _ m | OtherException _ m => m
  end.

(** ** Strings: the methods of [str] that the program and [urlsplit] use *)

Module PyStr.

Definition code (c : ascii) : N := N_of_ascii c.

Definition between (lo hi : N) (c : ascii) : bool :=
  ((lo <=? code c) && (code c <=? hi))%N.

(** [c.isspace()] on the code points below 256: TAB..CR, FS..US, SPACE,
    NEL (0x85) and NBSP (0xA0). *)
Definition isspace (c : ascii) : bool :=
  between 9 13 c || between 28 32 c || (code c =? 133)%N || (code c =? 160)%N.

Definition is_upper (c : ascii) : bool := between 65 90 c.
Definition is_lower (c : ascii) : bool := between 97 122 c.
Definition is_digit (c : ascii) : bool := between 48 57 c.

(** [c.isascii() and c.isalpha()] *)
Definition is_ascii_alpha (c : ascii) : bool := is_upper c || is_lower c.

Definition lower_char (c : ascii) : ascii :=
  if is_upper c then ascii_of_N (code c + 32) else c.

(** [s.lower()], on the ASCII letters *)
Fixpoint lower (s : string) : string :=
  match s with
  | EmptyString => EmptyString
  | String c s' => String (lower_char c) (lower s')
  end.

(** [s.lstrip(chars)], the set [chars] given by its membership test *)
Fixpoint lstrip_of (p : ascii → bool) (s : string) : string :=
  match s with
  | EmptyString => EmptyString
  | String c s' => if p c then lstrip_of p s' else s
  end.

Fixpoint rstrip_of (p : ascii → bool) (s : string) : string :=
  match s with
  | EmptyString => EmptyString
  | String c s' =>
      match rstrip_of p s' with
      | EmptyString => if p c then EmptyString else String c EmptyString
      | r => String c r
      end
  end.

(** [s.strip()] *)
Definition strip (s : string) : string := rstrip_of isspace (lstrip_of isspace s).

(** [s.replace(c, '')] for each of the characters that [p] accepts *)
Fixpoint remove_all (p : ascii → bool) (s : string) : string :=
  match s with
  | EmptyString => EmptyString
  | String c s' => if p c then remove_all p s' else String c (remove_all p s')
  end.

(** [c in s] *)
Fixpoint contains (c : ascii) (s : string) : bool :=
  match s with
  | EmptyString => false
  | String d s' => Ascii.eqb c d || contains c s'
  end.

(** [all(p(c) for c in s)] *)
Fixpoint all_chars (p : ascii → bool) (s : string) : bool :=
  match s with
  | EmptyString => true
  | String c s' => p c && all_chars p s'
  end.

(** The longest prefix of [s] whose characters all fail [p], and the rest:
    the text before the first character that [p] accepts, and the text from
    that character on. *)
Fixpoint break_at (p : ascii → bool) (s : string) : string * string :=
  match s with
  | EmptyString => (EmptyString, EmptyString)
  | String c s' =>
      if p c then (EmptyString, s)
      else let '(a, b) := break_at p s' in (String c a, b)
  end.

(** [s[:2] == '//'], with what follows the two slashes *)
Definition after_slashes (s : string) : option string :=
  match s with
  | String "/" (String "/" rest) => Some rest
  | _ => None
  end.

Definition is_empty (s : string) : bool :=
  match s with EmptyString => true | _ => false end.

End PyStr.

(** ** [urllib.parse.urlparse(url).scheme]

    [urlparse] belongs to Python's standard library, not to the repository; the
    program reads one field of its result, [scheme], and may be hit by the
    [ValueError] it raises.  The model follows [urlsplit] of CPython 3.11
    (Lib/urllib/parse.py), which [urlparse] calls first:

    - leading C0 control characters and spaces are stripped, TAB, CR and LF are
      removed everywhere;
    - with [i = url.find(':')], a scheme is found when [i > 0], [url[0]] is an
      ASCII letter and every character of [url[:i]] is a letter, a digit or one
      of [+-.]; the scheme is [url[:i].lower()];
    - when the rest starts with [//], the netloc runs to the first of [/?#];
      [ValueError("Invalid IPv6 URL")] is raised when exactly one of the two
      brackets occurs in it.

    Two further validations of the netloc are library internals that depend on
    [ipaddress] and [unicodedata] ([_check_bracketed_netloc], [_checknetloc]);
    they only decide whether [ValueError] is raised, and are taken as the
    parameter [netloc_ok]. *)

Module UrlParse.

Definition c0_control_or_space (c : ascii) : bool := (PyStr.code c <=? 32)%N.

Definition unsafe_byte (c : ascii) : bool :=
  ((PyStr.code c =? 9) || (PyStr.code c =? 13) || (PyStr.code c =? 10))%N.

Definition scheme_char (c : ascii) : bool :=
  PyStr.is_lower c || PyStr.is_upper c || PyStr.is_digit c
  || Ascii.eqb c "+" || Ascii.eqb c "-" || Ascii.eqb c ".".

Definition is_colon (c : ascii) : bool := Ascii.eqb c ":".

(** The scheme test of [urlsplit]: the pair [(scheme, url)] after it. *)
Definition split_scheme (url : string) : string * string :=
  match url with
  | EmptyString => (EmptyString, url)
  | String c0 _ =>
      match PyStr.break_at is_colon url with
      | (before, String _ rest) =>
          (* a colon at index [i = length before] *)
          if negb (PyStr.is_empty before) && PyStr.is_ascii_alpha c0
             && PyStr.all_chars scheme_char before
          then (PyStr.lower before, rest)
          else (EmptyString, url)
      | (_, EmptyString) => (EmptyString, url)   (* [find] gave -1 *)
      end
  end.

Definition netloc_delim (c : ascii) : bool :=
  Ascii.eqb c "/" || Ascii.eqb c "?" || Ascii.eqb c "#".

(** [_splitnetloc(url, 2)[0]], given [url[2:]] *)
Definition splitnetloc (rest : string) : string := fst (PyStr.break_at netloc_delim rest).

Definition unbalanced_brackets (netloc : string) : bool :=
  let l := PyStr.contains "[" netloc in
  let r := PyStr.contains "]" netloc in
  (l && negb r) || (r && negb l).

Section Scheme.
Variable netloc_ok : string → bool.

Definition urlparse_scheme (url : string) : pyresult string :=
  let url := PyStr.lstrip_of c0_control_or_space url in
  let url := PyStr.remove_all unsafe_byte url in
  let '(scheme, url) := split_scheme url in
  match PyStr.after_slashes url with
  | Some rest =>
      let netloc := splitnetloc rest in
      if unbalanced_brackets netloc then Raise (ValueError "Invalid IPv6 URL")
      else if netloc_ok netloc then Ok scheme
      else Raise (ValueError "invalid netloc")
  | None => Ok scheme
  end.
End Scheme.

End UrlParse.

(** ** Numbers: [round] and true division *)

(** Round half to even, to the nearest integer. *)
Definition round_half_even (q : Q) : Z :=
  let f := Qfloor q in
  match (q - inject_Z f ?= 1 # 2)%Q with
  | Lt => f
  | Gt => (f + 1)%Z
  | Eq => if Z.even f then f else (f + 1)%Z
  end.

(** [round(q, ndigits)] *)
Definition py_round (q : Q) (ndigits : nat) : Q :=
  let scale := (10 ^ Z.of_nat ndigits)%Z in
  Qmake (round_half_even (q * inject_Z scale)) (Z.to_pos scale).

(** [a / b] on two lengths: the true division of Python, which raises
    [ZeroDivisionError] on a zero divisor. *)
Definition py_truediv (a b : nat) : pyresult Q :=
  match b with
  | O => Raise (ZeroDivisionError "division by zero")
  | S _ => Ok (Qmake (Z.of_nat a) (Pos.of_nat b))
  end.

(** ** The [pyresult] monad *)

Global Instance pyresult_ret : MRet pyresult := λ _ a, Ok a.
Global Instance pyresult_bind : MBind pyresult :=
  λ _ _ f r, match r with Ok a => f a | Raise e => Raise e end.

(** ** Dictionaries *)

(** An outcome of one probe: the dict that [check_url] returns. *)
Abbreviation outcome := (gmap string pyval).

(** A result set: the dict of the three buckets.  [check_urls] builds a
    [defaultdict(list)], the constructor a plain dict with the three keys; a
    bucket that was never written reads as the empty list in both. *)
Abbreviation resultset := (gmap string (list outcome)).

(** [d[k]] on a plain dict *)
Definition getitem (d : outcome) (k : string) : pyresult pyval :=
  match d !! k with
  | Some v => Ok v
  | None => Raise (KeyError k)
  end.

(** [d.get(k, dflt)] *)
Definition dict_get (d : outcome) (k : string) (dflt : pyval) : pyval :=
  default dflt (d !! k).

(** [results[k]] on the result set *)
Definition bucket (results : resultset) (k : string) : list outcome :=
  default [] (results !! k).

(** [results[k].append(x)] *)
Definition bucket_append (results : resultset) (k : string) (x : outcome) : resultset :=
  <[k := bucket results k ++ [x]]> results.

(** Truth value of a Python value, as [if v:] tests it. *)
Definition truthy (v : pyval) : bool :=
  match v with
  | VNone => false
  | VBool b => b
  | VInt z => negb (z =? 0)%Z
  | VFloat q => negb (Qeq_bool q 0)
  | VStr s => negb (PyStr.is_empty s)
  end.

(** [200 <= v < 400]; comparing [None] or a string with an [int] raises
    [TypeError]. *)
Definition in_working_range (v : pyval) : pyresult bool :=
  match v with
  | VInt z => Ok ((200 <=? z)%Z && (z <? 400)%Z)
  | VBool b => Ok false
  | VFloat q => Ok (Qle_bool 200 q && negb (Qle_bool 400 q))
  | VNone | VStr _ =>
      Raise (TypeError "'<=' not supported between instances of 'int' and this type")
  end.

(** ** The network and the clock *)

Inductive http_method : Type := HEAD | GET.

(** One call of [session.head] or [session.get], with its keyword arguments. *)
Record request : Type := {
  req_method : http_method;
  req_url : string;
  req_timeout : Z;
  req_allow_redirects : bool;
  req_verify : bool;
  req_stream : bool
}.

(** What the program reads of a [requests.Response]. *)
Record response : Type := {
  resp_status_code : Z;
  resp_reason : string;
  resp_url : string
}.

(** The oracle's answer to a request: the wall-clock time that the call took
    and either a response or the exception that the call raised. *)
Record reply : Type := {
  took : Q;
  answer : pyresult response
}.

(** The world: the reading of [time.time()] and the requests issued so far. *)
Record world : Type := {
  now : Q;
  sent : list request
}.

(** The line of output that a [print] call writes, kept as the values that are
    formatted into it. *)
Inductive line : Type :=
  | Text (s : string)
  | Checking (n : nat) (workers : Z)
  | Progress (completed total : nat)
  | Count (label : string) (n : nat)
  | Item (mark : string) (fields : list pyval)
  | Total (n : nat)
  | Share (label : string) (n : nat) (percent : Q)
  | Loaded (n : nat) (filename : string)
  | LoadError (filename : string)
  | Saved (filename : string).

(** What the program leaves outside: the lines printed and the CSV files
    written, each file as its records of cells. *)
Record console : Type := {
  stdout : list line;
  files : gmap string (list (list pyval))
}.

(** ** State and exceptions

    A computation runs in a state and leaves a state, also when it raises. *)
Definition ST (S A : Type) : Type := S → pyresult A * S.

Global Instance ST_ret {S} : MRet (ST S) := λ _ a s, (Ok a, s).
Global Instance ST_bind {S} : MBind (ST S) :=
  λ _ _ f m s, match m s with
               | (Ok a, s') => f a s'
               | (Raise e, s') => (Raise e, s')
               end.

(** A pure call that may raise. *)
Definition lift {S A} (r : pyresult A) : ST S A := λ s, (r, s).

(** A probe runs against the world, the reporting against the console. *)
Abbreviation M := (ST world).
Abbreviation IO := (ST console).

(** [time.time()] *)
Definition time_time : M Q := λ w, (Ok (now w), w).

(** [try: body / except requests.exceptions.RequestException as e: handler e];
    any other exception passes through. *)
Definition try_except_request {A} (body : M A) (handler : exn → M A) : M A :=
  λ w, match body w with
       | (Ok a, w') => (Ok a, w')
       | (Raise e, w') =>
           if is_request_exception e then handler e w' else (Raise e, w')
       end.

(** [print(...)] *)
Definition print (l : line) : IO unit :=
  λ c, (Ok tt, {| stdout := stdout c ++ [l]; files := files c |}).

(** [for x in l: body x] *)
Fixpoint for_each {S A} (body : A → ST S unit) (l : list A) : ST S unit :=
  match l with
  | [] => mret tt
  | x :: l' => _ ← body x; for_each body l'
  end.

(** ** The two shapes of a completed outcome *)

(** No response was obtained: [is_error] is [True], [status_code] is [None]. *)
Definition failed (o : outcome) : Prop :=
  o !! "is_error" = Some (VBool true) ∧ o !! "status_code" = Some VNone.

(** A response was obtained: [is_error] is [False], [status_code] is an int. *)
Definition answered (o : outcome) : Prop :=
  o !! "is_error" = Some (VBool false) ∧ ∃ z, o !! "status_code" = Some (VInt z).

(** ** class UrlChecker *)

Module UrlChecker.

(** The attributes that [__init__] sets from its arguments. *)
Record config : Type := {
  timeout : Z;
  max_workers : Z;
  verify_ssl : bool
}.

(** [self.results] as [__init__] leaves it; nothing writes to it later. *)
Definition initial_results : resultset :=
  <["errors" := []]> (<["broken" := []]> (<["working" := []]> ∅)).

(** The scheduler's choices: which of the running probes finishes next at
    each step, and the clock reading at which each probe starts. *)
Record schedule : Type := {
  pick : nat → nat;
  started : nat → Q
}.

(** The order in which a pool of bounded size completes its tasks.  At most
    [length running] tasks run; one of them finishes, chosen by [pick], and
    the next queued task takes its slot. *)
Fixpoint pool_order {A} (pick : nat → nat) (step fuel : nat)
    (running queued : list A) : list A :=
  match fuel with
  | O => []
  | S fuel' =>
      let i := pick step `mod` length running in
      match running !! i with
      | None => []
      | Some t =>
          t :: pool_order pick (S step) fuel'
                 (delete i running ++ take 1 queued) (drop 1 queued)
      end
  end.

(** [concurrent.futures.as_completed] over the futures submitted to an
    executor with [n] workers. *)
Definition as_completed {A} (n : nat) (pick : nat → nat) (futures : list A) : list A :=
  pool_order pick 0 (length futures) (take n futures) (drop n futures).

(** Lines 142-147: the bucket of one outcome. *)
Definition category (result : outcome) : pyresult string :=
  is_error ← getitem result "is_error";
  if truthy (is_error : pyval) return pyresult string then Ok "errors"
  else
    status_code ← getitem result "status_code";
    working ← in_working_range status_code;
    if (working : bool) return pyresult string then Ok "working" else Ok "broken".

(** Lines 135-147: the loop over the completed futures.  [future.result()]
    raises again what the probe raised. *)
Fixpoint collect (total completed : nat) (futures : list (pyresult outcome))
    (results : resultset) : IO resultset :=
  match futures with
  | [] => mret results
  | future :: rest =>
      let completed := S completed in
      _ ← (if Nat.eqb (completed `mod` 10) 0 || Nat.eqb completed total
           then print (Progress completed total) else mret tt);
      result ← lift future;
      k ← lift (category result);
      collect total completed rest (bucket_append results k result)
  end.

Definition fieldnames : list string :=
  ["url"; "status_code"; "reason"; "response_time"; "is_error"; "error_type";
   "redirected"; "redirect_url"].

Definition categories : list string := ["working"; "broken"; "errors"].

(** Line 197: [{field: result.get(field, '') for field in fieldnames}], in
    the order of [fieldnames], as [DictWriter.writerow] lays it out. *)
Definition csv_row (result : outcome) : list pyval :=
  (λ field, dict_get result field (VStr "")) <$> fieldnames.

(** Lines 194-198: the records after the header. *)
Definition csv_rows (results : resultset) : list (list pyval) :=
  category ← categories; csv_row <$> bucket results category.

(** The outcomes of a result set, bucket after bucket: what line 175 counts
    and what the report lists. *)
Definition all_outcomes (results : resultset) : list outcome :=
  bucket results "working" ++ bucket results "broken" ++ bucket results "errors".

(** Each bucket holds outcomes of its own category only. *)
Definition sorted_out (rs : resultset) : Prop :=
  ∀ k o, o ∈ bucket rs k → category o = Ok k.

Section Checker.
Variable netloc_ok : string → bool.
Variable transport : request → reply.
Variable self : config.

(** [normalize_url], lines 47-51 *)
Definition normalize_url (url : string) : pyresult string :=
  scheme ← UrlParse.urlparse_scheme netloc_ok url;
  if PyStr.is_empty (scheme : string) return pyresult string
  then Ok ("https://" +:+ url) else Ok url.

(** The world after one request: the clock has advanced by the time the
    call took, and the request is on record. *)
Definition after (w : world) (r : request) : world :=
  {| now := (now w + took (transport r))%Q; sent := sent w ++ [r] |}.

Definition call (r : request) : M response :=
  λ w, (answer (transport r), after w r).

(** [self.session.head(url, timeout=..., allow_redirects=True, verify=...)] *)
Definition head_request (url : string) : request :=
  {| req_method := HEAD; req_url := url; req_timeout := timeout self;
     req_allow_redirects := true; req_verify := verify_ssl self;
     req_stream := false |}.

Definition session_head (url : string) : M response := call (head_request url).

(** [self.session.get(..., stream=True)] *)
Definition get_request (url : string) : request :=
  {| req_method := GET; req_url := url; req_timeout := timeout self;
     req_allow_redirects := true; req_verify := verify_ssl self;
     req_stream := true |}.

Definition session_get (url : string) : M response := call (get_request url).

(** [response.close()] releases the connection; the program sees nothing of it. *)
Definition close (r : response) : M unit := mret tt.

(** The dict of lines 64-72. *)
Definition initial_result (url : string) : outcome :=
  <["response_time" := VInt 0]> (
  <["error_type" := VNone]> (
  <["is_error" := VBool false]> (
  <["reason" := VNone]> (
  <["status_code" := VNone]> (
  <["original_url" := VStr url]> (
  <["url" := VStr url]> ∅)))))).

(** Lines 77-94: the HEAD request and the GET fallback on 405. *)
Definition probe (url : string) : M response :=
  response ← session_head url;
  if (resp_status_code response =? 405)%Z then
    response ← session_get url;
    _ ← close response;
    mret response
  else mret response.

(** Lines 96-104: the assignments after the requests; none of them raises. *)
Definition record_response (url : string) (elapsed : Q) (response : response)
    (result : outcome) : outcome :=
  let result := <["response_time" := VFloat (py_round elapsed 2)]> result in
  let result := <["status_code" := VInt (resp_status_code response)]> result in
  let result := <["reason" := VStr (resp_reason response)]> result in
  let result := <["final_url" := VStr (resp_url response)]> result in
  if negb (String.eqb (resp_url response) url) then
    let result := <["redirected" := VBool true]> result in
    <["redirect_url" := VStr (resp_url response)]> result
  else result.

(** Lines 107-109: the handler. *)
Definition record_failure (e : exn) (result : outcome) : outcome :=
  let result := <["is_error" := VBool true]> result in
  let result := <["error_type" := VStr (type_name e)]> result in
  <["reason" := VStr (str_of_exn e)]> result.

(** [check_url], lines 53-111.  The normalisation of line 63 stands before
    the [try]; the requests raise before any key of [result] is assigned,
    so the handler starts from the initial dict. *)
Definition check_url (url : string) : M outcome :=
  url ← lift (normalize_url (PyStr.strip url));
  let result := initial_result url in
  try_except_request
    (start_time ← time_time;
     response ← probe url;
     end_time ← time_time;
     mret (record_response url (end_time - start_time)%Q response result))
    (λ e, mret (record_failure e result)).

(** [executor.submit(self.check_url, url)] for each url, in order: the
    future of the i-th url holds what [check_url] returned or raised. *)
Definition submit_all (sched : schedule) (urls : list string)
    : list (pyresult outcome) :=
  imap (λ i url, fst (check_url url {| now := started sched i; sent := [] |})) urls.

(** [check_urls], lines 113-150.  [ThreadPoolExecutor] refuses a pool size
    that is not positive. *)
Definition check_urls (sched : schedule) (urls : list string) : IO resultset :=
  _ ← print (Checking (length urls) (max_workers self));
  if (max_workers self <=? 0)%Z then
    lift (Raise (ValueError "max_workers must be greater than 0"))
  else
    let futures := submit_all sched urls in
    let total := length futures in
    results ← collect total 0
                (as_completed (Z.to_nat (max_workers self)) (pick sched) futures) ∅;
    _ ← print (Text "Check completed!");
    mret results.

(** One line of the summary, lines 178-180: the f-string computes the
    percentage before anything is printed. *)
Definition print_share (label : string) (n total : nat) : IO unit :=
  ratio ← lift (py_truediv n total);
  print (Share label n (py_round (ratio * 100)%Q 1)).

(** [print_results], lines 152-180 *)
Definition print_results (results : option resultset) : IO unit :=
  let results := default initial_results results in
  _ ← print (Text "===== URL CHECK RESULTS =====");
  _ ← print (Count "WORKING URLs" (length (bucket results "working")));
  _ ← for_each (λ result,
         url ← lift (getitem result "url");
         status_code ← lift (getitem result "status_code");
         reason ← lift (getitem result "reason");
         response_time ← lift (getitem result "response_time");
         print (Item "✓" [url; status_code; reason; response_time]))
       (bucket results "working");
  _ ← print (Count "BROKEN URLs" (length (bucket results "broken")));
  _ ← for_each (λ result,
         url ← lift (getitem result "url");
         status_code ← lift (getitem result "status_code");
         reason ← lift (getitem result "reason");
         print (Item "✗" [url; status_code; reason]))
       (bucket results "broken");
  _ ← print (Count "ERRORS" (length (bucket results "errors")));
  _ ← for_each (λ result,
         url ← lift (getitem result "url");
         error_type ← lift (getitem result "error_type");
         reason ← lift (getitem result "reason");
         print (Item "!" [url; error_type; reason]))
       (bucket results "errors");
  let total := (length (bucket results "working") + length (bucket results "broken")
                + length (bucket results "errors"))%nat in
  _ ← print (Text "===== SUMMARY =====");
  _ ← print (Total total);
  _ ← print_share "Working" (length (bucket results "working")) total;
  _ ← print_share "Broken" (length (bucket results "broken")) total;
  print_share "Errors" (length (bucket results "errors")) total.

(** [save_csv_report], lines 182-200: the file is opened for writing, the
    header goes first, then one record per outcome. *)
Definition save_csv_report (filename : string) (results : option resultset)
    : IO unit :=
  let results := default initial_results results in
  _ ← (λ c, (Ok tt, {| stdout := stdout c;
                       files := <[filename := (VStr <$> fieldnames) :: csv_rows results]>
                                  (files c) |}));
  print (Saved filename).

End Checker.

End UrlChecker.

(** ** The command line *)

Record args : Type := {
  arg_file : option string;
  arg_timeout : Z;
  arg_workers : Z;
  arg_output : string;
  arg_verify_ssl : bool
}.

Section Main.
Variable netloc_ok : string → bool.
Variable transport : request → reply.
(** The text files that can be read, as their lines. *)
Variable fs : string → option (list string).

(** [load_urls_from_file], lines 202-210 *)
Definition load_urls_from_file (filename : string) : IO (list string) :=
  match fs filename with
  | Some lines =>
      mret (PyStr.strip <$> filter (λ l, PyStr.is_empty (PyStr.strip l) = false) lines)
  | None => _ ← print (LoadError filename); mret []
  end.

(** [main], lines 212-248, from the parsed arguments on. *)
Definition main (a : args) (sched : UrlChecker.schedule) : IO unit :=
  let checker := {| UrlChecker.timeout := arg_timeout a;
                    UrlChecker.max_workers := arg_workers a;
                    UrlChecker.verify_ssl := arg_verify_ssl a |} in
  urls ← match arg_file a with
         | Some f =>
             if PyStr.is_empty f then mret []
             else urls ← load_urls_from_file f;
                  _ ← print (Loaded (length urls) f);
                  mret urls
         | None => mret []
         end;
  match urls with
  | [] => print (Text "No URLs to check. Exiting.")
  | _ =>
      results ← UrlChecker.check_urls netloc_ok transport checker sched urls;
      _ ← UrlChecker.print_results (Some results);
      UrlChecker.save_csv_report (arg_output a) (Some results)
  end.
End Main.

(** ** Notions used in the statements *)

(** [category] puts the outcome into the bucket [k]. *)
Definition has_category (k : string) (o : outcome) : bool :=
  match UrlChecker.category o with
  | Ok k' => String.eqb k' k
  | Raise _ => false
  end.

(** The completions at which line 137 prints: every tenth and the last. *)
Definition reported (total i : nat) : bool :=
  Nat.eqb (i `mod` 10) 0 || Nat.eqb i total.

(** The progress lines for the completions [from + 1 .. from + n] of [total]. *)
Definition progress_between (total from n : nat) : list line :=
  (λ i, Progress i total) <$> List.filter (reported total) (seq (S from) n).

(** The outcome has the keys that [print_results] subscripts. *)
Definition printable (o : outcome) : Prop :=
  is_Some (o !! "url") ∧ is_Some (o !! "status_code") ∧ is_Some (o !! "reason") ∧
  is_Some (o !! "response_time") ∧ is_Some (o !! "error_type").

(** Every probe of the batch returns an outcome: the probe of the i-th url
    starts at the clock reading that the schedule gives it. *)
Definition all_return (netloc_ok : string → bool) (transport : request → reply)
    (self : UrlChecker.config) (sched : UrlChecker.schedule) (urls : list string) : Prop :=
  ∀ i url, urls !! i = Some url →
           returns (fst (UrlChecker.check_url netloc_ok transport self url
                           {| now := UrlChecker.started sched i; sent := [] |})).

(** The line that [print_results] prints for one outcome: the mark of the
    bucket and the values of the keys that the f-string subscripts. *)
Definition item_line (mark : string) (keys : list string) (o : outcome) : line :=
  Item mark ((λ k, default VNone (o !! k)) <$> keys).

(** [round(n / total * 100, 1)] for a total that is not zero. *)
Definition percentage (n total : nat) : Q :=
  py_round (Qmake (Z.of_nat n) (Pos.of_nat total) * 100)%Q 1.

(** A string without surrounding whitespace that is not empty. *)
Definition clean (u : string) : Prop := u ≠ "" ∧ PyStr.strip u = u.

(** The checker that [main] builds from the arguments, lines 224-228. *)
Definition checker_of (a : args) : UrlChecker.config :=
  {| UrlChecker.timeout := arg_timeout a;
     UrlChecker.max_workers := arg_workers a;
     UrlChecker.verify_ssl := arg_verify_ssl a |}.

(** The urls that a file of these lines yields, line 206. *)
Definition urls_of_lines (lines : list string) : list string :=
  PyStr.strip <$> filter (λ l, PyStr.is_empty (PyStr.strip l) = false) lines.

(** ** Concrete surroundings for the examples *)

Module Sample.
Import UrlChecker.

Definition cfg : config := {| timeout := 10; max_workers := 10; verify_ssl := false |}.

(** Every netloc passes the library's further validation. *)
Definition lenient : string → bool := λ _, true.

Definition w0 : world := {| now := 0; sent := [] |}.
Definition c0 : console := {| stdout := []; files := ∅ |}.

Definition fifo : schedule := {| pick := λ _, 0%nat; started := λ _, 0%Q |}.

Definition ok200 (url : string) : response :=
  {| resp_status_code := 200; resp_reason := "OK"; resp_url := url |}.

(** A server that answers every request with 200 at the requested url. *)
Definition serve_ok : request → reply :=
  λ r, {| took := 1 # 4; answer := Ok (ok200 (req_url r)) |}.

(** A server that refuses HEAD with 405 and answers GET with 200. *)
Definition serve_no_head : request → reply :=
  λ r, {| took := 1 # 4;
          answer := Ok match req_method r with
                       | HEAD => {| resp_status_code := 405;
                                    resp_reason := "Method Not Allowed";
                                    resp_url := req_url r |}
                       | GET => ok200 (req_url r)
                       end |}.

(** A server that sends every request to [https://b]. *)
Definition serve_moved : request → reply :=
  λ r, {| took := 1 # 4; answer := Ok (ok200 "https://b") |}.

(** No connection can be made. *)
Definition unreachable : request → reply :=
  λ r, {| took := 1 # 2;
          answer := Raise (RequestException "ConnectionError" "connection refused") |}.

(** One host is down, one page is missing, the rest answers 200. *)
Definition mixed : request → reply :=
  λ r, if String.eqb (req_url r) "https://badhost.invalid" then unreachable r
       else if String.eqb (req_url r) "https://example.com/gone"
            then {| took := 1 # 4;
                    answer := Ok {| resp_status_code := 404; resp_reason := "Not Found";
                                    resp_url := req_url r |} |}
            else serve_ok r.

Definition three_urls : list string :=
  ["example.com"; "badhost.invalid"; "example.com/gone"].

(** A dict with the two keys that the classifier reads: an answered outcome
    with status code [z]. *)
Definition status_only (z : Z) : outcome :=
  <["status_code" := VInt z]> (<["is_error" := VBool false]> ∅).

Definition no_args : args :=
  {| arg_file := None; arg_timeout := 10; arg_workers := 10;
     arg_output := "url_check_results.csv"; arg_verify_ssl := false |}.

(** One file can be read; two of its four lines are blank. *)
Definition one_file : string → option (list string) :=
  λ f, if String.eqb f "urls.txt"
       then Some ["  example.com "; ""; "badhost.invalid"; "   "]
       else None.




(** A result set with one error outcome. *)
Definition one_error : resultset :=
  bucket_append ∅ "errors"
    (record_failure (RequestException "ConnectionError" "connection refused")
       (initial_result "https://badhost.invalid")).

(** A server that refuses HEAD with 405 and then drops the GET. *)
Definition serve_drop_get : request → reply :=
  λ r, {| took := 1 # 4;
          answer := match req_method r with
                    | HEAD => Ok {| resp_status_code := 405;
                                    resp_reason := "Method Not Allowed";
                                    resp_url := req_url r |}
                    | GET => Raise (RequestException "ReadTimeout" "read timed out")
                    end |}.
End Sample.

(** * Properties *)

(** ** The prober *)

Section Prober.
Import UrlChecker.
Variable netloc_ok : string → bool.
Variable transport : request → reply.
Variable self : config.

Local Abbreviation normalize_url := (normalize_url netloc_ok).
Local Abbreviation probe := (probe transport self).
Local Abbreviation check_url := (check_url netloc_ok transport self).
Local Abbreviation head := (head_request self).
Local Abbreviation get := (get_request self).

Lemma probe_eq url w :
  probe url w =
    match answer (transport (head url)) with
    | Ok r1 =>
        if (resp_status_code r1 =? 405)%Z
        then (answer (transport (get url)), after transport (after transport w (head url)) (get url))
        else (Ok r1, after transport w (head url))
    | Raise e => (Raise e, after transport w (head url))
    end.
Proof.
  unfold UrlChecker.probe, session_head, session_get, call, close.
  unfold mbind, ST_bind, mret, ST_ret. cbn.
  destruct (answer (transport (head url))) as [r1|e]; [|reflexivity].
  destruct (resp_status_code r1 =? 405)%Z; [|reflexivity].
  cbn. destruct (answer (transport (get url))); reflexivity.
Qed.

Lemma check_url_eq raw url w :
  normalize_url (PyStr.strip raw) = Ok url →
  check_url raw w =
    match probe url w with
    | (Ok r, w') =>
        (Ok (record_response url (now w' - now w)%Q r (initial_result url)), w')
    | (Raise e, w') =>
        if is_request_exception e
        then (Ok (record_failure e (initial_result url)), w')
        else (Raise e, w')
    end.
Proof.
  intros Hn. unfold UrlChecker.check_url, try_except_request, time_time, lift.
  unfold mbind, ST_bind, mret, ST_ret. rewrite Hn.
  destruct (probe url w) as [[r|e] w']; reflexivity.
Qed.

Lemma check_url_raise_normalize raw e w :
  normalize_url (PyStr.strip raw) = Raise e → check_url raw w = (Raise e, w).
Proof.
  intros Hn. unfold UrlChecker.check_url, lift, mbind, ST_bind. now rewrite Hn.
Qed.

Lemma record_response_answered url t r :
  answered (record_response url t r (initial_result url)).
Proof.
  unfold answered, record_response.
  destruct (negb (resp_url r =? url)%string);
    (split; [vm_compute; reflexivity | eexists; vm_compute; reflexivity]).
Qed.

Lemma record_failure_failed url e : failed (record_failure e (initial_result url)).
Proof. split; vm_compute; reflexivity. Qed.

(** Every outcome that [check_url] returns was built by one of the two
    recording steps. *)
Lemma check_url_outcome raw w o w' :
  check_url raw w = (Ok o, w') →
  ∃ url, normalize_url (PyStr.strip raw) = Ok url ∧
    ((∃ r, fst (probe url w) = Ok r ∧
           o = record_response url (now w' - now w)%Q r (initial_result url))
     ∨ (∃ e, fst (probe url w) = Raise e ∧ is_request_exception e = true ∧
             o = record_failure e (initial_result url))).
Proof.
  intros H.
  destruct (normalize_url (PyStr.strip raw)) as [url|e] eqn:Hn.
  - exists url. split; [reflexivity|].
    rewrite (check_url_eq _ _ _ Hn) in H.
    destruct (probe url w) as [[r|e] w1]; cbn.
    + left. exists r. split; [reflexivity|]. congruence.
    + right. exists e. destruct (is_request_exception e); [|discriminate].
      repeat split. congruence.
  - rewrite (check_url_raise_normalize _ _ _ Hn) in H. discriminate.
Qed.

(** *** What the two recording steps leave in the dict *)

Section Recorded.
Variables (url : string) (t : Q) (r : response) (e : exn).

Local Abbreviation answer_dict := (record_response url t r (initial_result url)).
Local Abbreviation failure_dict := (record_failure e (initial_result url)).

Local Ltac by_lookup :=
  unfold record_response;
  destruct (String.eqb (resp_url r) url); vm_compute; reflexivity.

Lemma answer_url : answer_dict !! "url" = Some (VStr url).
Proof. by_lookup. Qed.

Lemma answer_status : answer_dict !! "status_code" = Some (VInt (resp_status_code r)).
Proof. by_lookup. Qed.

Lemma answer_is_error : answer_dict !! "is_error" = Some (VBool false).
Proof. by_lookup. Qed.

Lemma answer_final_url : answer_dict !! "final_url" = Some (VStr (resp_url r)).
Proof. by_lookup. Qed.

Lemma answer_redirected :
  answer_dict !! "redirected" =
    if String.eqb (resp_url r) url then None else Some (VBool true).
Proof. by_lookup. Qed.

Lemma answer_redirect_url :
  answer_dict !! "redirect_url" =
    if String.eqb (resp_url r) url then None else Some (VStr (resp_url r)).
Proof. by_lookup. Qed.

Lemma failure_url : failure_dict !! "url" = Some (VStr url).
Proof. vm_compute; reflexivity. Qed.

Lemma failure_is_error : failure_dict !! "is_error" = Some (VBool true).
Proof. vm_compute; reflexivity. Qed.

Lemma failure_status : failure_dict !! "status_code" = Some VNone.
Proof. vm_compute; reflexivity. Qed.

Lemma failure_error_type : failure_dict !! "error_type" = Some (VStr (type_name e)).
Proof. vm_compute; reflexivity. Qed.

Lemma failure_reason : failure_dict !! "reason" = Some (VStr (str_of_exn e)).
Proof. vm_compute; reflexivity. Qed.

Lemma failure_response_time : failure_dict !! "response_time" = Some (VInt 0).
Proof. vm_compute; reflexivity. Qed.

Lemma failure_final_url : failure_dict !! "final_url" = None.
Proof. vm_compute; reflexivity. Qed.

Lemma failure_redirected : failure_dict !! "redirected" = None.
Proof. vm_compute; reflexivity. Qed.

Lemma failure_redirect_url : failure_dict !! "redirect_url" = None.
Proof. vm_compute; reflexivity. Qed.
End Recorded.

Lemma failed_not_answered o : failed o → ¬ answered o.
Proof. intros [He _] [Ha _]. congruence. Qed.

Lemma answered_not_failed o : answered o → ¬ failed o.
Proof. intros [Ha _] [He _]. congruence. Qed.

Lemma check_url_shape raw w o w' :
  check_url raw w = (Ok o, w') → failed o ∨ answered o.
Proof.
  intros H. destruct (check_url_outcome _ _ _ _ H) as (url & _ & [(r & _ & ->)|(e & _ & _ & ->)]).
  - right. apply record_response_answered.
  - left. apply record_failure_failed.
Qed.

(** C4: every outcome that [check_url] returns either has [is_error] true
    and [status_code] [None], or has [status_code] an int and [is_error]
    false; never both, never neither. *)
Theorem check_url_exactly_one raw w o w' :
  check_url raw w = (Ok o, w') →
  (failed o ∧ ¬ answered o) ∨ (answered o ∧ ¬ failed o).
Proof.
  intros H. destruct (check_url_shape _ _ _ _ H) as [Hf|Ha].
  - left. split; [assumption | now apply failed_not_answered].
  - right. split; [assumption | now apply answered_not_failed].
Qed.

(** C10: when the requests of a probe fail with a [RequestException], the
    outcome that [check_url] returns keeps [response_time] at the initial
    [0] and has no [final_url], [redirected] or [redirect_url] key. *)
Theorem check_url_failure_fields raw url w e :
  normalize_url (PyStr.strip raw) = Ok url →
  fst (probe url w) = Raise e →
  is_request_exception e = true →
  ∃ o, fst (check_url raw w) = Ok o ∧
       o !! "response_time" = Some (VInt 0) ∧
       o !! "final_url" = None ∧
       o !! "redirected" = None ∧
       o !! "redirect_url" = None.
Proof.
  intros Hn Hp He. rewrite (check_url_eq _ _ _ Hn).
  destruct (probe url w) as [[r|e'] w1]; cbn in Hp; [discriminate|].
  injection Hp as ->. rewrite He. eexists. split; [reflexivity|].
  repeat split; vm_compute; reflexivity.
Qed.


(** C2, amended: in an outcome that [check_url] returns, the key
    [redirected] is either bound to [True] or missing (it is never [False]);
    it is bound to [True] exactly when the outcome has a [final_url] that
    differs from its [url], the normalised request url; and [redirect_url]
    is bound exactly when [redirected] is, to the final url. *)
Theorem redirected_when_moved raw w o w' :
  check_url raw w = (Ok o, w') →
  ∃ url, normalize_url (PyStr.strip raw) = Ok url ∧
    o !! "url" = Some (VStr url) ∧
    (o !! "redirected" = Some (VBool true) ∨ o !! "redirected" = None) ∧
    (o !! "redirected" = Some (VBool true) ↔
       ∃ final, o !! "final_url" = Some (VStr final) ∧ final ≠ url) ∧
    (∀ v, o !! "redirect_url" = Some v ↔
          o !! "redirected" = Some (VBool true) ∧ o !! "final_url" = Some v).
Proof.
  intros H.
  destruct (check_url_outcome _ _ _ _ H) as (url & Hn & [(r & _ & ->)|(e & _ & _ & ->)]);
    exists url; (split; [exact Hn|]).
  - rewrite answer_url, answer_redirected, answer_redirect_url, answer_final_url.
    destruct (String.eqb_spec (resp_url r) url) as [Heq|Hne].
    + split; [reflexivity|]. split; [now right|]. split.
      * split; [discriminate|]. intros (final & [= <-] & Hd). contradiction.
      * intros v. split; [discriminate|]. intros [? _]. discriminate.
    + split; [reflexivity|]. split; [now left|]. split.
      * split; [|reflexivity]. intros _. now exists (resp_url r).
      * intros v. split; [intros [= <-]; now split | now intros [_ [= <-]]].
  - rewrite failure_url, failure_redirected, failure_redirect_url, failure_final_url.
    split; [reflexivity|]. split; [now right|]. split.
    + split; [discriminate|]. intros (final & ? & _). discriminate.
    + intros v. split; [discriminate|]. intros [? _]. discriminate.
Qed.

(** C7: the HEAD request is always the first; a GET request follows exactly
    when the HEAD request was answered with status 405, and nothing follows
    the GET.  When the GET is answered with status S, the outcome records
    [status_code] S; without the fallback it records the status of the HEAD
    response. *)
Theorem fallback_on_405 raw url w :
  normalize_url (PyStr.strip raw) = Ok url →
  match answer (transport (head url)) with
  | Ok r1 =>
      if (resp_status_code r1 =? 405)%Z then
        sent (snd (check_url raw w)) = sent w ++ [head url; get url] ∧
        ∀ r2, answer (transport (get url)) = Ok r2 →
              ∃ o, fst (check_url raw w) = Ok o ∧
                   o !! "status_code" = Some (VInt (resp_status_code r2))
      else
        sent (snd (check_url raw w)) = sent w ++ [head url] ∧
        ∃ o, fst (check_url raw w) = Ok o ∧
             o !! "status_code" = Some (VInt (resp_status_code r1))
  | Raise _ => sent (snd (check_url raw w)) = sent w ++ [head url]
  end.
Proof.
  intros Hn. rewrite (check_url_eq _ _ _ Hn), probe_eq.
  destruct (answer (transport (head url))) as [r1|e1].
  - destruct (resp_status_code r1 =? 405)%Z.
    + split.
      * destruct (answer (transport (get url))) as [r2|e2]; cbn;
          [|destruct (is_request_exception e2); cbn];
          now rewrite <- app_assoc.
      * intros r2 ->. eexists. split; [reflexivity|]. apply answer_status.
    + split; [reflexivity|]. eexists. split; [reflexivity|]. apply answer_status.
  - destruct (is_request_exception e1); reflexivity.
Qed.

End Prober.

(** ** The dispatcher *)

Section Pool.
Import UrlChecker.
Context {A : Type}.

Lemma pool_order_perm (pick : nat → nat) fuel : ∀ step (running queued : list A),
  fuel = (length running + length queued)%nat →
  (running = [] → queued = []) →
  pool_order pick step fuel running queued ≡ₚ running ++ queued.
Proof.
  induction fuel as [|fuel IH]; intros step running queued Hlen Hrun.
  - destruct running; [|discriminate]. now rewrite (Hrun eq_refl).
  - assert (Hne : (0 < length running)%nat).
    { destruct running; [|cbn; lia]. rewrite (Hrun eq_refl) in Hlen. discriminate. }
    cbn [pool_order].
    set (i := (pick step `mod` length running)%nat).
    assert (Hi : (i < length running)%nat) by (apply Nat.mod_upper_bound; lia).
    destruct (lookup_lt_is_Some_2 running i Hi) as [t Ht]. rewrite Ht.
    rewrite IH.
    + rewrite <- app_assoc, take_drop.
      change ((t :: delete i running) ++ queued ≡ₚ running ++ queued).
      apply Permutation_app_tail. symmetry. now apply delete_Permutation.
    + rewrite length_app, length_delete by eauto.
      rewrite length_take, length_drop. lia.
    + intros [_ Hq]%app_eq_nil. destruct queued; [reflexivity|discriminate].
Qed.

(** With at least one worker, every submitted future completes exactly once. *)
Lemma as_completed_perm (n : nat) (pick : nat → nat) (futures : list A) :
  (1 ≤ n)%nat → as_completed n pick futures ≡ₚ futures.
Proof.
  intros Hn. unfold as_completed. rewrite pool_order_perm.
  - now rewrite take_drop.
  - now rewrite <- length_app, take_drop.
  - destruct futures as [|x l]; [intros _; apply drop_nil|].
    destruct n; [lia|discriminate].
Qed.

(** One worker completes the futures in the order of submission. *)
Lemma pool_order_single (pick : nat → nat) (l : list A) : ∀ step x,
  pool_order pick step (S (length l)) [x] l = x :: l.
Proof.
  induction l as [|y l IH]; intros step x; cbn [pool_order length].
  - rewrite Nat.mod_1_r. reflexivity.
  - rewrite Nat.mod_1_r.
    change (x :: pool_order pick (S step) (S (length l)) [y] l = x :: y :: l).
    now rewrite IH.
Qed.
End Pool.

Section Buckets.
Import UrlChecker.

Lemma category_names o k :
  category o = Ok k → k = "errors" ∨ k = "working" ∨ k = "broken".
Proof.
  unfold category, mbind, pyresult_bind.
  destruct (getitem o "is_error") as [v|]; [|discriminate].
  destruct (truthy v); [intros [= <-]; now left|].
  destruct (getitem o "status_code") as [sc|]; [|discriminate].
  destruct (in_working_range sc) as [[|]|]; [| |discriminate]; intros [= <-]; auto.
Qed.

Lemma bucket_append_same (rs : resultset) k o :
  bucket (bucket_append rs k o) k = bucket rs k ++ [o].
Proof. unfold bucket, bucket_append. now rewrite lookup_insert_eq. Qed.

Lemma bucket_append_other (rs : resultset) k k' o :
  k ≠ k' → bucket (bucket_append rs k o) k' = bucket rs k'.
Proof. intros Hne. unfold bucket, bucket_append. now rewrite lookup_insert_ne. Qed.

Lemma all_outcomes_append (rs : resultset) k o :
  k = "errors" ∨ k = "working" ∨ k = "broken" →
  all_outcomes (bucket_append rs k o) ≡ₚ all_outcomes rs ++ [o].
Proof.
  unfold all_outcomes. intros [->|[->| ->]];
    rewrite bucket_append_same, !bucket_append_other by discriminate.
  - now rewrite !app_assoc.
  - rewrite <- !app_assoc. apply Permutation_app_head.
    rewrite (app_assoc (bucket rs "broken")). apply Permutation_app_comm.
  - rewrite <- !app_assoc. do 2 apply Permutation_app_head.
    apply Permutation_app_comm.
Qed.


Lemma sorted_out_append rs k o :
  sorted_out rs → category o = Ok k → sorted_out (bucket_append rs k o).
Proof.
  intros Hs Hk k' o'. destruct (decide (k = k')) as [<-|Hne].
  - rewrite bucket_append_same, elem_of_app, list_elem_of_singleton.
    intros [Hin| ->]; [now apply Hs | exact Hk].
  - rewrite bucket_append_other by exact Hne. apply Hs.
Qed.

Lemma collect_ok total (os : list outcome) : ∀ completed (rs : resultset) c,
  Forall (λ o, returns (category o)) os →
  ∃ rs' c', collect total completed (Ok <$> os) rs c = (Ok rs', c') ∧
            all_outcomes rs' ≡ₚ all_outcomes rs ++ os ∧
            (sorted_out rs → sorted_out rs').
Proof.
  induction os as [|o os IH]; intros completed rs c Hall.
  - exists rs, c. cbn. rewrite app_nil_r. auto.
  - apply Forall_cons in Hall as [[k Hk] Hall].
    rewrite fmap_cons.
    assert (Hstep : ∃ c1, collect total completed (Ok o :: (Ok <$> os)) rs c =
                          collect total (S completed) (Ok <$> os) (bucket_append rs k o) c1).
    { cbn [collect]. unfold mbind, ST_bind, lift, print, mret, ST_ret.
      destruct (_ || _); rewrite Hk; eexists; reflexivity. }
    destruct Hstep as [c1 ->].
    destruct (IH (S completed) (bucket_append rs k o) c1 Hall) as (rs' & c' & -> & Hperm & Hsort).
    exists rs', c'. split; [reflexivity|]. split.
    + rewrite Hperm, (all_outcomes_append rs k o (category_names _ _ Hk)).
      now rewrite <- app_assoc.
    + intros Hs. now apply Hsort, sorted_out_append.
Qed.

(** The first future that raised, in the order of completion, ends the loop. *)
Lemma collect_raise total e (rest : list (pyresult outcome)) completed (rs : resultset) c :
  fst (collect total completed (Raise e :: rest) rs c) = Raise e.
Proof.
  cbn [collect]. unfold mbind, ST_bind, lift, print, mret, ST_ret.
  destruct (_ || _); reflexivity.
Qed.
End Buckets.

Section Normalize.
Import UrlChecker.
Variable netloc_ok : string → bool.

Local Abbreviation normalize_url := (normalize_url netloc_ok).
Local Abbreviation urlparse_scheme := (UrlParse.urlparse_scheme netloc_ok).

Lemma normalize_url_cases url v :
  normalize_url url = Ok v →
  ∃ scheme, urlparse_scheme url = Ok scheme ∧
    ((scheme = "" ∧ v = "https://" +:+ url) ∨ (scheme ≠ "" ∧ v = url)).
Proof.
  unfold UrlChecker.normalize_url, mbind, pyresult_bind.
  destruct (urlparse_scheme url) as [scheme|e]; [|discriminate].
  intros H. exists scheme. split; [reflexivity|].
  destruct scheme; cbn in H; injection H as <-; [left|right]; split; easy.
Qed.

(** A url that starts with [https://] has the scheme [https], whenever
    [urlparse] returns. *)
Lemma scheme_of_https url scheme :
  urlparse_scheme ("https://" +:+ url) = Ok scheme → scheme = "https".
Proof.
  unfold UrlParse.urlparse_scheme.
  replace (UrlParse.split_scheme _)
    with ("https", String "/" (String "/" (PyStr.remove_all UrlParse.unsafe_byte url)))
    by (vm_compute; reflexivity).
  cbn [PyStr.after_slashes].
  destruct (UrlParse.unbalanced_brackets _); [discriminate|].
  destruct (netloc_ok _); [|discriminate].
  now intros [= <-].
Qed.


End Normalize.

Section Classifier.
Import UrlChecker.

Lemma category_errors (o : outcome) :
  o !! "is_error" = Some (VBool true) → category o = Ok "errors".
Proof. intros H. unfold category, getitem, mbind, pyresult_bind. now rewrite H. Qed.

Lemma category_answered (o : outcome) z :
  o !! "is_error" = Some (VBool false) → o !! "status_code" = Some (VInt z) →
  category o = Ok (if (200 <=? z)%Z && (z <? 400)%Z then "working" else "broken").
Proof.
  intros He Hs. unfold category, getitem, mbind, pyresult_bind. rewrite He, Hs. cbn.
  now destruct ((200 <=? z)%Z && (z <? 400)%Z).
Qed.

Lemma category_returns (o : outcome) : failed o ∨ answered o → returns (category o).
Proof.
  intros [[He _]|[He [z Hz]]].
  - eexists. now apply category_errors.
  - eexists. apply (category_answered o z He Hz).
Qed.

(** C5: the bucket of an outcome follows one rule.  With [is_error] true it
    is [errors]; with [is_error] false and a status code [z] it is [working]
    when [200 <= z < 400] and [broken] for every other integer [z], below
    100 and above 599 included; one bucket name is returned in each case. *)
Theorem category_rule (o : outcome) :
  (o !! "is_error" = Some (VBool true) → category o = Ok "errors") ∧
  (∀ z : Z, o !! "is_error" = Some (VBool false) →
            o !! "status_code" = Some (VInt z) →
            ((200 ≤ z < 400)%Z → category o = Ok "working") ∧
            (¬ (200 ≤ z < 400)%Z → category o = Ok "broken")) ∧
  (∀ k, category o = Ok k → k = "errors" ∨ k = "working" ∨ k = "broken").
Proof.
  split; [apply category_errors|]. split; [|apply category_names].
  intros z He Hs. rewrite (category_answered o z He Hs).
  split; intros Hz.
  - replace ((200 <=? z)%Z && (z <? 400)%Z) with true; [reflexivity|].
    symmetry. apply andb_true_iff. split; [apply Z.leb_le|apply Z.ltb_lt]; lia.
  - destruct ((200 <=? z)%Z && (z <? 400)%Z) eqn:Hb; [|reflexivity].
    apply andb_true_iff in Hb as [H1%Z.leb_le H2%Z.ltb_lt]. lia.
Qed.
End Classifier.

Section Dispatcher.
Import UrlChecker.
Variable netloc_ok : string → bool.
Variable transport : request → reply.
Variable self : config.

Local Abbreviation check_url := (check_url netloc_ok transport self).
Local Abbreviation submit_all := (submit_all netloc_ok transport self).
Local Abbreviation check_urls := (check_urls netloc_ok transport self).

Lemma all_ok (l : list (pyresult outcome)) :
  Forall returns l → ∃ os, l = Ok <$> os.
Proof.
  induction 1 as [|r l [o ->] _ [os ->]]; [now exists []|]. now exists (o :: os).
Qed.

Lemma submitted_shape sched urls os o :
  submit_all sched urls = Ok <$> os → o ∈ os → failed o ∨ answered o.
Proof.
  intros Hs [i Hi]%list_elem_of_lookup.
  assert (H : (Ok <$> os) !! i = Some (Ok o)) by now rewrite list_lookup_fmap, Hi.
  rewrite <- Hs in H. unfold UrlChecker.submit_all in H.
  rewrite list_lookup_imap in H.
  destruct (urls !! i) as [url|]; [|discriminate]. cbn in H. injection H as H.
  eapply (check_url_shape netloc_ok transport self url).
  rewrite (surjective_pairing (check_url url _)), H. reflexivity.
Qed.


End Dispatcher.

(** ** The reports *)

Section Report.
Import UrlChecker.





End Report.

(** ** The command line *)

Section CommandLine.
Variable netloc_ok : string → bool.
Variable transport : request → reply.
Variable fs : string → option (list string).

(** Without urls [main] stops before the check: neither the results nor the
    summary are printed, and no report is written. *)
Lemma main_without_file a sched c :
  arg_file a = None →
  main netloc_ok transport fs a sched c =
    (Ok tt, {| stdout := stdout c ++ [Text "No URLs to check. Exiting."];
               files := files c |}).
Proof. intros H. unfold main. rewrite H. reflexivity. Qed.

Lemma main_unreadable_file a f sched c :
  arg_file a = Some f → PyStr.is_empty f = false → fs f = None →
  main netloc_ok transport fs a sched c =
    (Ok tt, {| stdout := stdout c ++ [LoadError f; Loaded 0 f;
                                      Text "No URLs to check. Exiting."];
               files := files c |}).
Proof.
  intros Ha Hf Hfs. unfold main, load_urls_from_file. rewrite Ha, Hf, Hfs.
  unfold mbind, ST_bind, print, mret, ST_ret. cbn. now rewrite <- !app_assoc.
Qed.
End CommandLine.

(** ** Scenarios *)

Module Scenario.
Import UrlChecker Sample.

Local Ltac run := vm_compute; reflexivity.

(** A concrete call returned: the other case is refuted by evaluation. *)
Local Ltac returned H :=
  let E := fresh "E" in
  lazymatch type of H with
  | ?r = (Raise _, _) => assert (E : is_ok (fst r) = true) by run; rewrite H in E
  | ?r = Raise _ => assert (E : is_ok r = true) by run; rewrite H in E
  end; discriminate E.

(** *** Normalisation *)

Example scheme_plain : UrlParse.urlparse_scheme lenient "example.com" = Ok "".
Proof. reflexivity. Qed.

Example scheme_upper : UrlParse.urlparse_scheme lenient "HTTP://example.com/a" = Ok "http".
Proof. reflexivity. Qed.

Example scheme_port : UrlParse.urlparse_scheme lenient "localhost:8080" = Ok "localhost".
Proof. reflexivity. Qed.

Example normalize_qualified :
  normalize_url lenient "http://example.com" = Ok "http://example.com".
Proof. reflexivity. Qed.


(** *** The prober *)



(** The final url equals the normalised url, and the outcome has no
    [redirected] key at all: not [False], nothing. *)
Lemma redirected_missing_counterexample :
  match fst (check_url lenient serve_ok cfg "example.com" w0) with
  | Ok o =>
      o !! "url" = Some (VStr "https://example.com") ∧
      o !! "final_url" = Some (VStr "https://example.com") ∧
      o !! "redirected" = None ∧
      ¬ ∃ b : bool, o !! "redirected" = Some (VBool b)
  | Raise _ => False
  end.
Proof.
  vm_compute. split; [reflexivity|]. split; [reflexivity|]. split; [reflexivity|].
  intros [b Hb]. discriminate Hb.
Qed.

Lemma redirected_when_moved_witness :
  ∃ o w', check_url lenient serve_moved cfg "http://a" w0 = (Ok o, w') ∧
          o !! "redirected" = Some (VBool true) ∧
          o !! "redirect_url" = Some (VStr "https://b").
Proof.
  destruct (check_url lenient serve_moved cfg "http://a" w0) as [[o|e] w'] eqn:H;
    [|returned H].
  exists o, w'. split; [reflexivity|].
  destruct (redirected_when_moved lenient serve_moved cfg "http://a" w0 o w' H)
    as (url & Hn & _ & _ & Hr & Hu).
  vm_compute in Hn. injection Hn as <-.
  assert (Hf : o !! "final_url" = Some (VStr "https://b")).
  { assert (E : match fst (check_url lenient serve_moved cfg "http://a" w0) with
                | Ok d => d !! "final_url"
                | Raise _ => None
                end = Some (VStr "https://b")) by run.
    rewrite H in E. exact E. }
  assert (Hred : o !! "redirected" = Some (VBool true)).
  { apply Hr. exists "https://b". split; [exact Hf | discriminate]. }
  split; [exact Hred|]. apply Hu. now split.
Defined.

Lemma check_url_exactly_one_witness :
  ∃ o w', check_url lenient serve_ok cfg "example.com" w0 = (Ok o, w') ∧
          ((failed o ∧ ¬ answered o) ∨ (answered o ∧ ¬ failed o)).
Proof.
  destruct (check_url lenient serve_ok cfg "example.com" w0) as [[o|e] w'] eqn:H;
    [|returned H].
  exists o, w'. split; [reflexivity|].
  exact (check_url_exactly_one lenient serve_ok cfg "example.com" w0 o w' H).
Defined.

Lemma check_url_failure_fields_witness :
  ∃ o, fst (check_url lenient unreachable cfg "badhost.invalid" w0) = Ok o ∧
       o !! "response_time" = Some (VInt 0) ∧
       o !! "final_url" = None ∧
       o !! "redirected" = None ∧
       o !! "redirect_url" = None.
Proof.
  apply (check_url_failure_fields lenient unreachable cfg "badhost.invalid"
           "https://badhost.invalid" w0
           (RequestException "ConnectionError" "connection refused")); run.
Defined.

Lemma fallback_on_405_witness :
  sent (snd (check_url lenient serve_no_head cfg "example.com" w0)) =
    [head_request cfg "https://example.com"; get_request cfg "https://example.com"] ∧
  ∃ o, fst (check_url lenient serve_no_head cfg "example.com" w0) = Ok o ∧
       o !! "status_code" = Some (VInt 200).
Proof.
  assert (Hn : normalize_url lenient (PyStr.strip "example.com") = Ok "https://example.com")
    by run.
  pose proof (fallback_on_405 lenient serve_no_head cfg "example.com"
                "https://example.com" w0 Hn) as [Hs Ho].
  split; [exact Hs|]. exact (Ho _ eq_refl).
Defined.

Example plain_head_only :
  sent (snd (check_url lenient serve_ok cfg "example.com" w0)) =
    [head_request cfg "https://example.com"].
Proof. run. Qed.

(** *** The classifier *)

Lemma category_rule_witness :
  category (status_only 600) = Ok "broken" ∧ category (status_only 99) = Ok "broken" ∧
  category (status_only 399) = Ok "working".
Proof.
  split; [|split].
  - apply (proj1 (proj2 (category_rule (status_only 600))) 600%Z); [run | run | lia].
  - apply (proj1 (proj2 (category_rule (status_only 99))) 99%Z); [run | run | lia].
  - apply (proj1 (proj2 (category_rule (status_only 399))) 399%Z); [run | run | lia].
Defined.

(** A dict that breaks the invariant of outcomes, no error and no status
    code, is not classified: the comparison raises. *)
Example category_without_status :
  category (<["status_code" := VNone]> (<["is_error" := VBool false]> ∅))
  = Raise (TypeError "'<=' not supported between instances of 'int' and this type").
Proof. run. Qed.

(** *** The dispatcher *)



Example three_urls_buckets :
  match check_urls lenient mixed cfg fifo three_urls c0 with
  | (Ok results, c') =>
      length (bucket results "working") = 1%nat ∧
      length (bucket results "broken") = 1%nat ∧
      length (bucket results "errors") = 1%nat ∧
      stdout c' = [Checking 3 10; Progress 3 3; Text "Check completed!"]
  | (Raise _, _) => False
  end.
Proof. vm_compute. repeat split. Qed.

(** One worker completes the probes in the order of submission. *)
Example one_worker_in_order :
  as_completed 1 (λ n, n) [1; 2; 3; 4]%nat = [1; 2; 3; 4]%nat.
Proof. reflexivity. Qed.

Example two_workers_out_of_order :
  as_completed 2 (λ _, 1%nat) [1; 2; 3; 4]%nat = [2; 3; 4; 1]%nat.
Proof. reflexivity. Qed.

(** *** The reports *)

Example main_no_urls :
  main lenient serve_ok (λ _, None) no_args fifo c0 =
    (Ok tt, {| stdout := [Text "No URLs to check. Exiting."]; files := ∅ |}).
Proof. reflexivity. Qed.

End Scenario.


(** * Further properties *)

(** ** Whitespace *)

Section Strip.
Import PyStr.
Variable p : ascii → bool.

Lemma lstrip_of_head s :
  lstrip_of p s = "" ∨ ∃ c r, lstrip_of p s = String c r ∧ p c = false.
Proof.
  induction s as [|c s IH]; [now left|]. cbn.
  destruct (p c) eqn:Hc; [exact IH|]. right. now exists c, s.
Qed.

Lemma rstrip_of_idem s : rstrip_of p (rstrip_of p s) = rstrip_of p s.
Proof.
  induction s as [|c s IH]; [reflexivity|]. cbn [rstrip_of].
  destruct (rstrip_of p s) as [|d r] eqn:E.
  - destruct (p c) eqn:Hc; cbn; [reflexivity|]. now rewrite Hc.
  - cbn [rstrip_of] in *. now rewrite IH.
Qed.

Lemma rstrip_of_keeps_head c s :
  p c = false → ∃ r, rstrip_of p (String c s) = String c r.
Proof.
  intros Hc. cbn. destruct (rstrip_of p s); [rewrite Hc|]; eauto.
Qed.

Lemma strip_of_idem s :
  rstrip_of p (lstrip_of p (rstrip_of p (lstrip_of p s))) = rstrip_of p (lstrip_of p s).
Proof.
  destruct (lstrip_of_head s) as [E|(c & r & E & Hc)]; rewrite E; [reflexivity|].
  destruct (rstrip_of_keeps_head c r Hc) as [r' E'].
  rewrite E'. cbn [lstrip_of]. rewrite Hc, <- E'. apply rstrip_of_idem.
Qed.
End Strip.

Lemma strip_idem s : PyStr.strip (PyStr.strip s) = PyStr.strip s.
Proof. apply strip_of_idem. Qed.

Lemma urls_of_lines_clean lines : Forall clean (urls_of_lines lines).
Proof.
  unfold urls_of_lines. apply Forall_fmap, Forall_forall.
  intros l [Hl _]%list_elem_of_filter. split; [|apply strip_idem].
  cbn. intros E. now rewrite E in Hl.
Qed.

Section Loading.
Variable fs : string → option (list string).

(** [load_urls_from_file] never raises and never writes a file.  The urls
    it returns are not empty and carry no surrounding whitespace; no more
    urls than lines.  A file that cannot be read gives no url and one line of
    output; a file that can be read gives no output. *)
Theorem load_urls_clean filename c :
  ∃ urls out,
    load_urls_from_file fs filename c =
      (Ok urls, {| stdout := stdout c ++ out; files := files c |}) ∧
    Forall clean urls ∧
    match fs filename with
    | Some lines => out = [] ∧ (length urls ≤ length lines)%nat
    | None => out = [LoadError filename] ∧ urls = []
    end.
Proof.
  unfold load_urls_from_file. destruct (fs filename) as [lines|].
  - exists (urls_of_lines lines), []. rewrite app_nil_r.
    split; [now destruct c|]. split; [apply urls_of_lines_clean|].
    split; [reflexivity|]. unfold urls_of_lines.
    rewrite length_fmap. apply length_filter.
  - exists [], [LoadError filename]. repeat split. constructor.
Qed.
End Loading.

Section Whitespace.
Import UrlChecker.
Variable netloc_ok : string → bool.
Variable transport : request → reply.
Variable self : config.

(** [check_url] ignores the whitespace around its argument: the probe of a
    url and the probe of the stripped url are the same, outcome and requests. *)
Theorem check_url_ignores_whitespace raw w :
  check_url netloc_ok transport self (PyStr.strip raw) w
  = check_url netloc_ok transport self raw w.
Proof. unfold check_url. now rewrite strip_idem. Qed.

(** The url that [normalize_url] returns has a scheme: [urlparse] finds a
    non-empty one in it whenever it parses. *)
Theorem normalize_url_has_scheme url v scheme :
  normalize_url netloc_ok url = Ok v →
  UrlParse.urlparse_scheme netloc_ok v = Ok scheme →
  scheme ≠ "".
Proof.
  intros Hv Hs.
  destruct (normalize_url_cases _ _ _ Hv) as (s0 & H0 & [[-> ->]|[Hne ->]]).
  - now rewrite (scheme_of_https _ _ _ Hs).
  - congruence.
Qed.
End Whitespace.

(** ** More on the prober *)

Section Outcomes.
Import UrlChecker.
Variable netloc_ok : string → bool.
Variable transport : request → reply.
Variable self : config.

Local Abbreviation normalize_url := (normalize_url netloc_ok).
Local Abbreviation probe := (probe transport self).
Local Abbreviation check_url := (check_url netloc_ok transport self).
Local Abbreviation head := (head_request self).
Local Abbreviation get := (get_request self).
Local Abbreviation after := (after transport).

Section Keys.
Variables (url : string) (t : Q) (r : response) (e : exn).

Local Abbreviation answer_dict := (record_response url t r (initial_result url)).
Local Abbreviation failure_dict := (record_failure e (initial_result url)).

Local Ltac by_lookup :=
  unfold record_response;
  destruct (String.eqb (resp_url r) url); vm_compute; reflexivity.

Lemma answer_original_url : answer_dict !! "original_url" = Some (VStr url).
Proof. by_lookup. Qed.

Lemma answer_reason : answer_dict !! "reason" = Some (VStr (resp_reason r)).
Proof. by_lookup. Qed.

Lemma answer_response_time :
  answer_dict !! "response_time" = Some (VFloat (py_round t 2)).
Proof. by_lookup. Qed.

Lemma answer_error_type : answer_dict !! "error_type" = Some VNone.
Proof. by_lookup. Qed.

Lemma failure_original_url : failure_dict !! "original_url" = Some (VStr url).
Proof. vm_compute; reflexivity. Qed.

Lemma answer_printable : printable answer_dict.
Proof.
  unfold printable.
  rewrite answer_url, answer_status, answer_reason, answer_response_time, answer_error_type.
  repeat split; eauto.
Qed.

Lemma failure_printable : printable failure_dict.
Proof.
  unfold printable.
  rewrite failure_url, failure_status, failure_reason, failure_response_time,
    failure_error_type.
  repeat split; eauto.
Qed.
End Keys.

Lemma check_url_printable raw w o w' : check_url raw w = (Ok o, w') → printable o.
Proof.
  intros H.
  destruct (check_url_outcome _ _ _ _ _ _ _ H) as (url & _ & [(r & _ & ->)|(e & _ & _ & ->)]).
  - apply answer_printable.
  - apply failure_printable.
Qed.

(** Every outcome keeps the normalised url under both [url] and
    [original_url]: the raw input is not recorded.  It also has every key
    that [print_results] subscripts. *)
Theorem check_url_records_normalised_url raw w o w' :
  check_url raw w = (Ok o, w') →
  ∃ url, normalize_url (PyStr.strip raw) = Ok url ∧
         o !! "url" = Some (VStr url) ∧
         o !! "original_url" = Some (VStr url) ∧
         printable o.
Proof.
  intros H.
  destruct (check_url_outcome _ _ _ _ _ _ _ H) as (url & Hn & [(r & _ & ->)|(e & _ & _ & ->)]);
    exists url; (split; [exact Hn|]).
  - split; [apply answer_url|]. split; [apply answer_original_url|apply answer_printable].
  - split; [apply failure_url|]. split; [apply failure_original_url|apply failure_printable].
Qed.

(** When HEAD is answered with 405 and the GET that follows fails with a
    [RequestException], the outcome is an error outcome built from that
    exception: the 405 is not recorded, and both requests were sent. *)
Theorem fallback_failure_is_error raw url w r1 e :
  normalize_url (PyStr.strip raw) = Ok url →
  answer (transport (head url)) = Ok r1 →
  resp_status_code r1 = 405%Z →
  answer (transport (get url)) = Raise e →
  is_request_exception e = true →
  ∃ o, check_url raw w = (Ok o, after (after w (head url)) (get url)) ∧
       failed o ∧
       o !! "error_type" = Some (VStr (type_name e)) ∧
       o !! "reason" = Some (VStr (str_of_exn e)).
Proof.
  intros Hn Hh H405 Hg He.
  rewrite (check_url_eq _ _ _ _ _ _ Hn), probe_eq, Hh, H405, Hg. cbn. rewrite He.
  eexists. split; [reflexivity|]. split; [apply record_failure_failed|].
  split; [apply failure_error_type|apply failure_reason].
Qed.

(** The bucket of a probe follows from what the requests gave: [errors] when
    they raised a [RequestException], [working] when the last response has a
    status in [200, 400), [broken] for every other status. *)
Theorem check_url_bucket raw url w :
  normalize_url (PyStr.strip raw) = Ok url →
  match fst (probe url w) with
  | Ok r =>
      ∃ o, fst (check_url raw w) = Ok o ∧
           category o = Ok (if (200 <=? resp_status_code r)%Z && (resp_status_code r <? 400)%Z
                            then "working" else "broken")
  | Raise e =>
      is_request_exception e = true →
      ∃ o, fst (check_url raw w) = Ok o ∧ category o = Ok "errors"
  end.
Proof.
  intros Hn. rewrite (check_url_eq _ _ _ _ _ _ Hn).
  destruct (probe url w) as [[r|e] w1]; cbn [fst].
  - eexists. split; [reflexivity|].
    apply category_answered; [apply answer_is_error|apply answer_status].
  - intros ->. eexists. split; [reflexivity|].
    apply category_errors, failure_is_error.
Qed.



End Outcomes.

(** ** More on the dispatcher *)

Section Loop.
Import UrlChecker.

Lemma progress_between_step total from n :
  progress_between total from (S n) =
    (if reported total (S from) then [Progress (S from) total] else [])
    ++ progress_between total (S from) n.
Proof.
  unfold progress_between. cbn [seq List.filter].
  now destruct (reported total (S from)).
Qed.

Lemma has_category_of o k0 k : category o = Ok k0 → has_category k o = String.eqb k0 k.
Proof. intros H. unfold has_category. now rewrite H. Qed.

Lemma collect_run total (os : list outcome) : ∀ completed (rs : resultset) c,
  Forall (λ o, returns (category o)) os →
  ∃ rs', collect total completed (Ok <$> os) rs c =
           (Ok rs', {| stdout := stdout c ++ progress_between total completed (length os);
                       files := files c |}) ∧
         ∀ k, bucket rs' k = bucket rs k ++ List.filter (has_category k) os.
Proof.
  induction os as [|o os IH]; intros completed rs c Hall.
  - exists rs. cbn. rewrite !app_nil_r. split; [now destruct c|].
    intros k. now rewrite app_nil_r.
  - apply Forall_cons in Hall as [[k0 Hk] Hall].
    rewrite fmap_cons.
    set (c1 := {| stdout := stdout c ++ (if reported total (S completed)
                                        then [Progress (S completed) total] else []);
                  files := files c |}).
    assert (Hstep : collect total completed (Ok o :: (Ok <$> os)) rs c =
                    collect total (S completed) (Ok <$> os) (bucket_append rs k0 o) c1).
    { cbn [collect]. unfold mbind, ST_bind, lift, print, mret, ST_ret.
      fold (reported total (S completed)). subst c1.
      destruct (reported total (S completed)); rewrite Hk; [reflexivity|].
      rewrite app_nil_r. now destruct c. }
    rewrite Hstep.
    destruct (IH (S completed) (bucket_append rs k0 o) c1 Hall) as (rs' & -> & Hb).
    exists rs'. split.
    + subst c1. cbn [stdout files length].
      now rewrite progress_between_step, <- app_assoc.
    + intros k. rewrite Hb. cbn [List.filter]. rewrite (has_category_of o k0 k Hk).
      destruct (String.eqb_spec k0 k) as [<-|Hne].
      * now rewrite bucket_append_same, <- app_assoc.
      * now rewrite bucket_append_other.
Qed.

(** The loop of lines 135-147 keeps the order of completion inside every
    bucket: over outcomes that [category] accepts, each bucket grows by the
    outcomes of its category, in the order in which their futures completed;
    and one progress line is printed for every tenth completion and for the
    last one, nothing else. *)
Theorem collect_keeps_completion_order total completed (os : list outcome)
    (rs : resultset) c :
  Forall (λ o, returns (category o)) os →
  ∃ rs', collect total completed (Ok <$> os) rs c =
           (Ok rs', {| stdout := stdout c ++ progress_between total completed (length os);
                       files := files c |}) ∧
         ∀ k, bucket rs' k = bucket rs k ++ List.filter (has_category k) os.
Proof. apply collect_run. Qed.

Lemma collect_returns_all total (futures : list (pyresult outcome)) :
  ∀ completed (rs : resultset) c,
  returns (fst (collect total completed futures rs c)) → Forall returns futures.
Proof.
  induction futures as [|f futures IH]; intros completed rs c Hr; [constructor|].
  destruct f as [o|e].
  - constructor; [now exists o|].
    revert Hr. cbn [collect]. unfold mbind, ST_bind, lift, print, mret, ST_ret.
    destruct (category o) as [k|e] eqn:Hk.
    + destruct (_ || _); apply IH.
    + destruct (_ || _); cbn; intros [? ?]; discriminate.
  - rewrite collect_raise in Hr. destruct Hr as [? ?]. discriminate.
Qed.
End Loop.

Section Batch.
Import UrlChecker.
Variable netloc_ok : string → bool.
Variable transport : request → reply.
Variable self : config.

Local Abbreviation check_url := (check_url netloc_ok transport self).
Local Abbreviation submit_all := (submit_all netloc_ok transport self).
Local Abbreviation check_urls := (check_urls netloc_ok transport self).

Lemma submit_all_returns sched urls :
  all_return netloc_ok transport self sched urls ↔ Forall returns (submit_all sched urls).
Proof.
  unfold all_return, UrlChecker.submit_all. rewrite Forall_lookup. split.
  - intros Hall i r. rewrite list_lookup_imap.
    destruct (urls !! i) as [url|] eqn:Hu; [|discriminate].
    cbn. intros [= <-]. now apply Hall.
  - intros Hall i url Hu. apply (Hall i). now rewrite list_lookup_imap, Hu.
Qed.

Lemma submitted_printable sched urls os o :
  submit_all sched urls = Ok <$> os → o ∈ os → printable o.
Proof.
  intros Hs [i Hi]%list_elem_of_lookup.
  assert (H : (Ok <$> os) !! i = Some (Ok o)) by now rewrite list_lookup_fmap, Hi.
  rewrite <- Hs in H. unfold UrlChecker.submit_all in H.
  rewrite list_lookup_imap in H.
  destruct (urls !! i) as [url|]; [|discriminate]. cbn in H. injection H as H.
  eapply (check_url_printable netloc_ok transport self url).
  rewrite (surjective_pairing (check_url url _)), H. reflexivity.
Qed.

Lemma check_urls_run sched urls c :
  (1 ≤ max_workers self)%Z →
  all_return netloc_ok transport self sched urls →
  ∃ os done rs,
    submit_all sched urls = Ok <$> os ∧
    length os = length urls ∧
    done ≡ₚ os ∧
    Forall printable os ∧
    check_urls sched urls c =
      (Ok rs, {| stdout := stdout c ++ Checking (length urls) (max_workers self)
                             :: progress_between (length urls) 0 (length urls)
                             ++ [Text "Check completed!"];
                 files := files c |}) ∧
    (∀ k, bucket rs k = List.filter (has_category k) done) ∧
    all_outcomes rs ≡ₚ os.
Proof.
  intros Hn Hall. apply submit_all_returns in Hall.
  destruct (all_ok _ Hall) as [os Hos].
  assert (Hlen : length os = length urls).
  { apply (f_equal length) in Hos. unfold UrlChecker.submit_all in Hos.
    rewrite length_imap, length_fmap in Hos. lia. }
  assert (Hdone : as_completed (Z.to_nat (max_workers self)) (pick sched) (Ok <$> os)
                    ≡ₚ Ok <$> os) by (apply as_completed_perm; lia).
  apply Permutation_map_inv in Hdone as (done & Heq & Hperm).
  change (list_fmap _ _ Ok os) with (Ok <$> os) in Heq.
  change (map Ok done) with (Ok <$> done) in Heq.
  assert (Hcat : Forall (λ o, returns (category o)) done).
  { apply Forall_forall. intros o Ho. apply category_returns.
    apply (submitted_shape netloc_ok transport self sched urls os o Hos). now rewrite Hperm. }
  set (c1 := {| stdout := stdout c ++ [Checking (length urls) (max_workers self)];
                files := files c |}).
  destruct (collect_run (length urls) done 0 ∅ c1 Hcat) as (rs & Hcol & Hb).
  destruct (collect_ok (length urls) done 0 ∅ c1 Hcat) as (rs2 & c2 & Hcol2 & Hp & _).
  rewrite Hcol in Hcol2. injection Hcol2 as <- _.
  exists os, done, rs. split; [exact Hos|]. split; [exact Hlen|].
  split; [now symmetry|]. split.
  { apply Forall_forall. intros o Ho. now apply (submitted_printable sched urls os). }
  split; [|split].
  - unfold UrlChecker.check_urls, mbind, ST_bind, print at 1.
    replace (max_workers self <=? 0)%Z with false by (symmetry; apply Z.leb_gt; lia).
    fold submit_all. fold c1. rewrite Hos, Heq, length_fmap, Hlen, Hcol.
    unfold print, mret, ST_ret. subst c1. cbn [stdout files].
    rewrite <- (Permutation_length Hperm), Hlen.
    now rewrite <- !app_assoc.
  - intros k. rewrite Hb. unfold bucket. now rewrite lookup_empty.
  - rewrite Hp. cbn. now symmetry.
Qed.

(** What a run of [check_urls] prints and returns.  With at least one worker
    and probes that all return, it prints the opening line, one progress line
    for every tenth completion and for the last one, and the closing line; it
    writes no file; and every bucket holds the outcomes of its category in
    the order of completion, which is some order of the K probes. *)
Theorem check_urls_output sched urls c :
  (1 ≤ max_workers self)%Z →
  all_return netloc_ok transport self sched urls →
  ∃ os done rs,
    submit_all sched urls = Ok <$> os ∧
    done ≡ₚ os ∧
    check_urls sched urls c =
      (Ok rs, {| stdout := stdout c ++ Checking (length urls) (max_workers self)
                             :: progress_between (length urls) 0 (length urls)
                             ++ [Text "Check completed!"];
                 files := files c |}) ∧
    ∀ k, bucket rs k = List.filter (has_category k) done.
Proof.
  intros Hn Hall.
  destruct (check_urls_run sched urls c Hn Hall)
    as (os & done & rs & Hos & _ & Hp & _ & Hrun & Hb & _).
  now exists os, done, rs.
Qed.

(** With at least one worker, [check_urls] returns a result set exactly when
    every probe returns an outcome: one probe that raises makes the whole
    call raise, whatever the other probes gave. *)
Theorem check_urls_returns_iff sched urls c :
  (1 ≤ max_workers self)%Z →
  returns (fst (check_urls sched urls c)) ↔ all_return netloc_ok transport self sched urls.
Proof.
  intros Hn. split.
  - intros Hr. apply submit_all_returns.
    revert Hr. unfold UrlChecker.check_urls, mbind, ST_bind, print at 1.
    replace (max_workers self <=? 0)%Z with false by (symmetry; apply Z.leb_gt; lia).
    fold submit_all.
    destruct (collect _ _ _ _ _) as [[rs|e] c1] eqn:Hc; [|intros [? ?]; discriminate].
    intros _.
    assert (Hf : Forall returns
                   (as_completed (Z.to_nat (max_workers self)) (pick sched)
                      (submit_all sched urls))).
    { eapply collect_returns_all. rewrite Hc. now exists rs. }
    rewrite as_completed_perm in Hf by lia. exact Hf.
  - intros Hall.
    destruct (check_urls_run sched urls c Hn Hall)
      as (os & done & rs & _ & _ & _ & _ & -> & _). now exists rs.
Qed.


End Batch.


(** ** More on the reports *)

Section Printing.
Import UrlChecker.

Lemma bind_ok {S A B} (m : ST S A) (k : A → ST S B) s a s' :
  m s = (Ok a, s') → (m ≫= k) s = k a s'.
Proof. intros H. unfold mbind, ST_bind. now rewrite H. Qed.

Lemma bind_raise {S A B} (m : ST S A) (k : A → ST S B) s e s' :
  m s = (Raise e, s') → (m ≫= k) s = (Raise e, s').
Proof. intros H. unfold mbind, ST_bind. now rewrite H. Qed.

Lemma for_each_lines {A} (body : A → IO unit) (ln : A → line) (l : list A) :
  (∀ x, x ∈ l → ∀ c, body x c = (Ok tt, {| stdout := stdout c ++ [ln x]; files := files c |})) →
  ∀ c, for_each body l c = (Ok tt, {| stdout := stdout c ++ (ln <$> l); files := files c |}).
Proof.
  induction l as [|x l IH]; intros Hb c.
  - cbn. rewrite app_nil_r. now destruct c.
  - cbn [for_each]. rewrite (bind_ok _ _ _ _ _ (Hb x ltac:(left) c)).
    rewrite IH by (intros y Hy; apply Hb; now right).
    cbn. now rewrite <- app_assoc.
Qed.

Lemma print_share_ok label n total c :
  total ≠ 0%nat →
  print_share label n total c =
    (Ok tt, {| stdout := stdout c ++ [Share label n (percentage n total)];
               files := files c |}).
Proof. intros Ht. destruct total; [contradiction|reflexivity]. Qed.

Local Ltac item_ok :=
  let o := fresh "o" in let Ho := fresh "Ho" in let c0 := fresh "c" in
  intros o Ho c0;
  match goal with
  | H : ∀ o, _ → printable o |- _ =>
      destruct (H o) as ([? ?] & [? ?] & [? ?] & [? ?] & [? ?])
  end;
  [ unfold all_outcomes; rewrite !elem_of_app; tauto
  | unfold item_line, mbind, ST_bind, lift, getitem, print;
    cbn [fmap list_fmap];
    repeat match goal with
           | E : o !! _ = Some _ |- _ => rewrite ?E; clear E
           end;
    reflexivity ].

(** The whole output of [print_results] over outcomes that have the keys it
    reads, when there is at least one outcome. *)
Lemma print_results_lines (rs : resultset) c :
  (∀ o, o ∈ all_outcomes rs → printable o) →
  all_outcomes rs ≠ [] →
  let total := length (all_outcomes rs) in
  print_results (Some rs) c =
    (Ok tt,
     {| stdout :=
          stdout c
          ++ [Text "===== URL CHECK RESULTS =====";
              Count "WORKING URLs" (length (bucket rs "working"))]
          ++ (item_line "✓" ["url"; "status_code"; "reason"; "response_time"]
                <$> bucket rs "working")
          ++ [Count "BROKEN URLs" (length (bucket rs "broken"))]
          ++ (item_line "✗" ["url"; "status_code"; "reason"] <$> bucket rs "broken")
          ++ [Count "ERRORS" (length (bucket rs "errors"))]
          ++ (item_line "!" ["url"; "error_type"; "reason"] <$> bucket rs "errors")
          ++ [Text "===== SUMMARY ====="; Total total;
              Share "Working" (length (bucket rs "working"))
                (percentage (length (bucket rs "working")) total);
              Share "Broken" (length (bucket rs "broken"))
                (percentage (length (bucket rs "broken")) total);
              Share "Errors" (length (bucket rs "errors"))
                (percentage (length (bucket rs "errors")) total)];
        files := files c |}).
Proof.
  intros Hp Hne total.
  assert (Ht : total ≠ 0%nat).
  { subst total. destruct (all_outcomes rs); [contradiction|discriminate]. }
  assert (Etotal : (length (bucket rs "working") + length (bucket rs "broken")
                    + length (bucket rs "errors"))%nat = total).
  { subst total. unfold all_outcomes. rewrite !length_app. lia. }
  unfold print_results. cbv zeta.
  change (default initial_results (Some rs)) with rs.
  rewrite Etotal.
  erewrite bind_ok by reflexivity.
  erewrite bind_ok by reflexivity.
  erewrite bind_ok
    by (apply (for_each_lines _
                 (item_line "✓" ["url"; "status_code"; "reason"; "response_time"]));
        item_ok).
  erewrite bind_ok by reflexivity.
  erewrite bind_ok
    by (apply (for_each_lines _ (item_line "✗" ["url"; "status_code"; "reason"]));
        item_ok).
  erewrite bind_ok by reflexivity.
  erewrite bind_ok
    by (apply (for_each_lines _ (item_line "!" ["url"; "error_type"; "reason"]));
        item_ok).
  erewrite bind_ok by reflexivity.
  erewrite bind_ok by reflexivity.
  erewrite bind_ok by (now apply print_share_ok).
  erewrite bind_ok by (now apply print_share_ok).
  rewrite print_share_ok by exact Ht.
  cbn [stdout files]. f_equal. f_equal.
  rewrite <- !app_assoc. reflexivity.
Qed.

(** [print_results] returns, without [KeyError] and without
    [ZeroDivisionError], on every result set that has at least one outcome
    and whose outcomes have the keys it reads; it prints nine lines and one
    line per outcome, the line of the total among them, and writes no file. *)
Theorem print_results_returns (rs : resultset) c :
  (∀ o, o ∈ all_outcomes rs → printable o) →
  all_outcomes rs ≠ [] →
  ∃ lines,
    print_results (Some rs) c =
      (Ok tt, {| stdout := stdout c ++ lines; files := files c |}) ∧
    length lines = (9 + length (all_outcomes rs))%nat ∧
    Total (length (all_outcomes rs)) ∈ lines.
Proof.
  intros Hp Hne. rewrite (print_results_lines rs c Hp Hne).
  eexists. split; [reflexivity|]. split.
  - rewrite !length_app, !length_fmap. unfold all_outcomes.
    rewrite !length_app. cbn. lia.
  - rewrite !elem_of_app. do 6 right. apply list_elem_of_here || (right; left).
Qed.

End Printing.

Section Csv.
Import UrlChecker.
Variable netloc_ok : string → bool.
Variable transport : request → reply.
Variable self : config.




(** The record that the report holds for a probe.  After a response: the
    normalised url, the status, the reason, the rounded time, [False], [None],
    and [True] with the final url when the response came from another url,
    two empty cells otherwise.  After a [RequestException]: the normalised
    url, [None], the message, 0, [True], the class name and two empty cells. *)
Theorem csv_row_of_probe raw url w :
  normalize_url netloc_ok (PyStr.strip raw) = Ok url →
  match probe transport self url w with
  | (Ok r, w1) =>
      ∃ o, fst (check_url netloc_ok transport self raw w) = Ok o ∧
           csv_row o =
             [VStr url; VInt (resp_status_code r); VStr (resp_reason r);
              VFloat (py_round (now w1 - now w) 2); VBool false; VNone;
              if String.eqb (resp_url r) url then VStr "" else VBool true;
              if String.eqb (resp_url r) url then VStr "" else VStr (resp_url r)]
  | (Raise e, _) =>
      is_request_exception e = true →
      ∃ o, fst (check_url netloc_ok transport self raw w) = Ok o ∧
           csv_row o =
             [VStr url; VNone; VStr (str_of_exn e); VInt 0; VBool true;
              VStr (type_name e); VStr ""; VStr ""]
  end.
Proof.
  intros Hn. rewrite (check_url_eq _ _ _ _ _ _ Hn).
  destruct (probe transport self url w) as [[r|e] w1].
  - eexists. split; [reflexivity|].
    unfold csv_row, fieldnames, dict_get. cbn [fmap list_fmap].
    rewrite answer_url, answer_status, answer_reason, answer_response_time,
      answer_is_error, answer_error_type, answer_redirected, answer_redirect_url.
    now destruct (String.eqb (resp_url r) url).
  - intros ->. eexists. split; [reflexivity|].
    unfold csv_row, fieldnames, dict_get. cbn [fmap list_fmap].
    now rewrite failure_url, failure_status, failure_reason, failure_response_time,
      failure_is_error, failure_error_type, failure_redirected, failure_redirect_url.
Qed.

(** An outcome without the key [url] at the head of the [working] bucket
    makes [print_results] raise [KeyError] right after the count of the
    bucket: no outcome and no summary is printed. *)
Theorem print_results_missing_key (rs : resultset) o rest c :
  bucket rs "working" = o :: rest →
  o !! "url" = None →
  print_results (Some rs) c =
    (Raise (KeyError "url"),
     {| stdout := stdout c ++ [Text "===== URL CHECK RESULTS =====";
                               Count "WORKING URLs" (S (length rest))];
        files := files c |}).
Proof.
  intros Hw Ho. unfold print_results. cbv zeta.
  change (default initial_results (Some rs)) with rs. rewrite Hw.
  erewrite bind_ok by reflexivity.
  erewrite bind_ok by reflexivity.
  erewrite bind_raise.
  2:{ cbn [for_each]. erewrite bind_raise; [reflexivity|].
      unfold mbind, ST_bind, lift, getitem. rewrite Ho. reflexivity. }
  cbn [stdout files length]. now rewrite <- app_assoc.
Qed.

End Csv.

(** ** More on the command line *)

Section Run.
Import UrlChecker.
Variable netloc_ok : string → bool.
Variable transport : request → reply.
Variable fs : string → option (list string).

(** [main] on a file that can be read: the file is loaded and counted, then
    the urls decide. *)
Lemma main_loaded a sched c f lines :
  arg_file a = Some f → f ≠ "" → fs f = Some lines →
  main netloc_ok transport fs a sched c =
    match urls_of_lines lines with
    | [] => print (Text "No URLs to check. Exiting.")
    | _ =>
        results ← check_urls netloc_ok transport (checker_of a) sched (urls_of_lines lines);
        _ ← print_results (Some results);
        save_csv_report (arg_output a) (Some results)
    end {| stdout := stdout c ++ [Loaded (length (urls_of_lines lines)) f];
           files := files c |}.
Proof.
  intros Ha Hf Hfs. unfold main, load_urls_from_file. rewrite Ha, Hfs.
  destruct f as [|ch f]; [contradiction|]. cbn [PyStr.is_empty].
  fold (urls_of_lines lines). fold (checker_of a).
  unfold mbind at 1 2 3, ST_bind at 1 2 3, mret, ST_ret, print at 1.
  reflexivity.
Qed.

(** Without a url to check [main] stops after its message: it returns, sends
    no request (no probe is run) and writes no file.  That is so without a
    file argument, with a file that cannot be read, and with a file whose
    lines are all blank. *)
Theorem main_stops_without_urls a sched c :
  (arg_file a = None ∨
   ∃ f, arg_file a = Some f ∧ f ≠ "" ∧
        (fs f = None ∨ ∃ lines, fs f = Some lines ∧ urls_of_lines lines = [])) →
  ∃ out,
    main netloc_ok transport fs a sched c =
      (Ok tt, {| stdout := stdout c ++ out ++ [Text "No URLs to check. Exiting."];
                 files := files c |}) ∧
    ∀ l, l ∈ out → l = LoadError (default "" (arg_file a)) ∨
                   l = Loaded 0 (default "" (arg_file a)).
Proof.
  intros [Ha|(f & Ha & Hf & [Hfs|(lines & Hfs & Hu)])].
  - exists []. split; [|now intros l ?%elem_of_nil].
    unfold main. rewrite Ha. reflexivity.
  - exists [LoadError f; Loaded 0 f]. rewrite Ha. split.
    + unfold main, load_urls_from_file. rewrite Ha, Hfs.
      destruct f as [|ch f]; [contradiction|]. cbn [PyStr.is_empty].
      unfold mbind, ST_bind, print, mret, ST_ret. cbn. now rewrite <- !app_assoc.
    + intros l. rewrite !elem_of_cons. intros [->|[->|?%elem_of_nil]]; tauto.
  - exists [Loaded 0 f]. rewrite Ha. split.
    + rewrite (main_loaded a sched c f lines Ha Hf Hfs), Hu.
      unfold print. cbn. now rewrite <- !app_assoc.
    + intros l. rewrite list_elem_of_singleton. intros ->. now right.
Qed.



End Run.

(** ** Further scenarios *)

Module Cases.
Import UrlChecker Sample.

Local Ltac run := vm_compute; reflexivity.

Local Ltac returned H :=
  let E := fresh "E" in
  lazymatch type of H with
  | ?r = (Raise _, _) => assert (E : is_ok (fst r) = true) by run; rewrite H in E
  | ?r = Raise _ => assert (E : is_ok r = true) by run; rewrite H in E
  end; discriminate E.

Local Ltac probes_return :=
  let i := fresh "i" in let url := fresh "url" in let Hu := fresh "Hu" in
  intros i url Hu;
  repeat (destruct i as [|i]; [cbn in Hu; injection Hu as <-|]);
  [ match goal with
    | |- returns ?r =>
        let o := fresh "o" in let e := fresh "e" in let E := fresh "E" in
        destruct r as [o|e] eqn:E; [now exists o | returned E]
    end .. | cbn in Hu; discriminate Hu ].


Example load_urls_sample :
  fst (load_urls_from_file one_file "urls.txt" c0) = Ok ["example.com"; "badhost.invalid"] ∧
  load_urls_from_file one_file "missing.txt" c0
  = (Ok [], {| stdout := [LoadError "missing.txt"]; files := ∅ |}).
Proof. split; run. Qed.

Lemma normalize_url_has_scheme_witness :
  normalize_url lenient "example.com" = Ok "https://example.com" ∧
  UrlParse.urlparse_scheme lenient "https://example.com" = Ok "https" ∧
  "https" ≠ "".
Proof.
  assert (Hv : normalize_url lenient "example.com" = Ok "https://example.com") by run.
  assert (Hs : UrlParse.urlparse_scheme lenient "https://example.com" = Ok "https") by run.
  split; [exact Hv|]. split; [exact Hs|].
  exact (normalize_url_has_scheme lenient "example.com" "https://example.com" "https" Hv Hs).
Defined.

Lemma check_url_records_normalised_url_witness :
  ∃ o w', check_url lenient serve_ok cfg " example.com " w0 = (Ok o, w') ∧
          o !! "url" = Some (VStr "https://example.com") ∧
          o !! "original_url" = Some (VStr "https://example.com").
Proof.
  destruct (check_url lenient serve_ok cfg " example.com " w0) as [[o|e] w'] eqn:H;
    [|returned H].
  exists o, w'. split; [reflexivity|].
  destruct (check_url_records_normalised_url lenient serve_ok cfg " example.com " w0 o w' H)
    as (url & Hn & Hu & Ho & _).
  vm_compute in Hn. injection Hn as <-. now split.
Defined.

Lemma fallback_failure_is_error_witness :
  ∃ o w', check_url lenient serve_drop_get cfg "example.com" w0 = (Ok o, w') ∧
          failed o ∧
          o !! "error_type" = Some (VStr "ReadTimeout") ∧
          length (sent w') = 2%nat.
Proof.
  destruct (fallback_failure_is_error lenient serve_drop_get cfg "example.com"
              "https://example.com" w0
              {| resp_status_code := 405; resp_reason := "Method Not Allowed";
                 resp_url := "https://example.com" |}
              (RequestException "ReadTimeout" "read timed out"))
    as (o & H & Hf & Het & _);
    [run | reflexivity | reflexivity | reflexivity | reflexivity |].
  eexists o, _. split; [exact H|]. split; [exact Hf|]. split; [exact Het|reflexivity].
Defined.

Lemma check_url_bucket_witness :
  (∃ o, fst (check_url lenient serve_ok cfg "example.com" w0) = Ok o ∧
        category o = Ok "working") ∧
  (∃ o, fst (check_url lenient mixed cfg "example.com/gone" w0) = Ok o ∧
        category o = Ok "broken") ∧
  (∃ o, fst (check_url lenient unreachable cfg "badhost.invalid" w0) = Ok o ∧
        category o = Ok "errors").
Proof.
  split; [|split].
  - assert (Hn : normalize_url lenient (PyStr.strip "example.com") = Ok "https://example.com")
      by run.
    exact (check_url_bucket lenient serve_ok cfg "example.com" "https://example.com" w0 Hn).
  - assert (Hn : normalize_url lenient (PyStr.strip "example.com/gone")
                 = Ok "https://example.com/gone") by run.
    exact (check_url_bucket lenient mixed cfg "example.com/gone"
             "https://example.com/gone" w0 Hn).
  - assert (Hn : normalize_url lenient (PyStr.strip "badhost.invalid")
                 = Ok "https://badhost.invalid") by run.
    exact (check_url_bucket lenient unreachable cfg "badhost.invalid"
             "https://badhost.invalid" w0 Hn eq_refl).
Defined.

Example bad_url_sends_nothing :
  check_url lenient serve_ok cfg "http://[" w0 = (Raise (ValueError "Invalid IPv6 URL"), w0).
Proof. run. Qed.

Lemma collect_keeps_completion_order_witness :
  ∃ rs c', collect 3 0 (Ok <$> [status_only 404; status_only 200; status_only 500]) ∅ c0
             = (Ok rs, c') ∧
           bucket rs "broken" = [status_only 404; status_only 500] ∧
           bucket rs "working" = [status_only 200] ∧
           stdout c' = [Progress 3 3].
Proof.
  destruct (collect_keeps_completion_order 3 0
              [status_only 404; status_only 200; status_only 500] ∅ c0)
    as (rs & H & Hb).
  - repeat constructor; eexists; run.
  - eexists rs, _. split; [exact H|].
    split; [rewrite Hb; run|]. split; [rewrite Hb; run|run].
Defined.

Lemma check_urls_output_witness :
  ∃ rs c', check_urls lenient mixed cfg fifo three_urls c0 = (Ok rs, c') ∧
           stdout c' = [Checking 3 10; Progress 3 3; Text "Check completed!"] ∧
           files c' = ∅.
Proof.
  destruct (check_urls_output lenient mixed cfg fifo three_urls c0)
    as (os & done & rs & _ & _ & H & _).
  - cbn. lia.
  - unfold all_return, three_urls. probes_return.
  - eexists rs, _. split; [exact H|]. split; reflexivity.
Defined.

Lemma check_urls_returns_iff_witness :
  ¬ all_return lenient serve_ok cfg fifo ["example.com"; "http://["].
Proof.
  intros Hall.
  apply (check_urls_returns_iff lenient serve_ok cfg fifo ["example.com"; "http://["] c0)
    in Hall; [|cbn; lia].
  destruct Hall as [rs Hrs].
  assert (E : is_ok (fst (check_urls lenient serve_ok cfg fifo ["example.com"; "http://["] c0))
              = false) by run.
  rewrite Hrs in E. discriminate E.
Defined.


Lemma one_error_outcomes :
  all_outcomes one_error =
    [record_failure (RequestException "ConnectionError" "connection refused")
       (initial_result "https://badhost.invalid")].
Proof.
  unfold all_outcomes, one_error.
  now rewrite bucket_append_same, !bucket_append_other by discriminate.
Qed.

Lemma print_results_returns_witness :
  ∃ lines, print_results (Some one_error) c0 = (Ok tt, {| stdout := lines; files := ∅ |}) ∧
           length lines = 10%nat.
Proof.
  destruct (print_results_returns one_error c0) as (lines & H & Hl & _).
  - rewrite one_error_outcomes. intros o ->%list_elem_of_singleton.
    apply failure_printable.
  - rewrite one_error_outcomes. discriminate.
  - exists lines. split; [exact H|]. now rewrite Hl, one_error_outcomes.
Defined.

Lemma print_results_missing_key_witness :
  fst (print_results (Some (bucket_append ∅ "working" ∅)) c0) = Raise (KeyError "url").
Proof.
  rewrite (print_results_missing_key (bucket_append ∅ "working" ∅) ∅ [] c0);
    [reflexivity | apply bucket_append_same | reflexivity].
Defined.

Lemma csv_row_of_probe_witness :
  ∃ o, fst (check_url lenient unreachable cfg "badhost.invalid" w0) = Ok o ∧
       csv_row o = [VStr "https://badhost.invalid"; VNone; VStr "connection refused";
                    VInt 0; VBool true; VStr "ConnectionError"; VStr ""; VStr ""].
Proof.
  assert (Hn : normalize_url lenient (PyStr.strip "badhost.invalid")
               = Ok "https://badhost.invalid") by run.
  exact (csv_row_of_probe lenient unreachable cfg "badhost.invalid"
           "https://badhost.invalid" w0 Hn eq_refl).
Defined.

Lemma main_stops_without_urls_witness :
  ∃ out, main lenient serve_ok one_file no_args fifo c0 =
           (Ok tt, {| stdout := out ++ [Text "No URLs to check. Exiting."]; files := ∅ |}).
Proof.
  destruct (main_stops_without_urls lenient serve_ok one_file no_args fifo c0)
    as (out & H & _); [now left|].
  now exists out.
Defined.



End Cases.
